(** * Contract compatibility check: a model of [scripts/contracts-check-diff.mjs]

    The script classifies how breaking a change to a JSON schema file is
    ([classify]), folds the per-file severities into one required level
    ([bumpFrom]), classifies the step between two version strings ([parse],
    [cmp]) and decides whether the version was bumped enough (the final
    [ok]/[fail] block).

    The functions below follow the script statement by statement.  The parts
    of JavaScript they rely on (property lookup through the prototype chain,
    [JSON.stringify], [Set], [String.prototype.match], unary plus) are
    modelled first, each as far as the script uses it. *)

From Stdlib Require Import List String Ascii Bool Arith ZArith NArith Lia Permutation.
Import ListNotations.

Local Open Scope string_scope.
Local Open Scope list_scope.
Local Open Scope nat_scope.

(** ** JavaScript strings and numbers

    A string is a sequence of UTF-16 code units; the model holds one code unit
    per [ascii], so it covers the strings whose code units are below 256. *)

Module JS.

Definition backslash : ascii := ascii_of_nat 92.

(** The line terminators, which [.] in a regular expression does not match.
    (U+2028 and U+2029 lie outside the code units of the model.) *)
Definition is_line_terminator (c : ascii) : bool :=
  Ascii.eqb c (ascii_of_nat 10) || Ascii.eqb c (ascii_of_nat 13).

Definition is_digit (c : ascii) : bool :=
  let n := nat_of_ascii c in (48 <=? n) && (n <=? 57).

Fixpoint all_digits (s : string) : bool :=
  match s with
  | EmptyString => true
  | String c s' => is_digit c && all_digits s'
  end.

Fixpoint decimal_value (acc : N) (s : string) : N :=
  match s with
  | EmptyString => acc
  | String c s' => decimal_value (10 * acc + (N_of_ascii c - 48))%N s'
  end.

(** A number as the version comparison sees it: [NaN], or a finite value. *)
Inductive number : Type :=
| NaN
| Num (n : N).

(** Unary plus on a string, [+s].  A string of decimal digits denotes its
    value (kept exact here) and the empty string denotes 0.  No numeric literal contains a
    backslash, and the backslash is not white space, so every string that
    holds one converts to [NaN]; the other literal forms (sign, fraction,
    exponent, radix prefix, surrounding white space, [Infinity]) are never
    the text of a capture group of the pattern in [parse] and are left out. *)
Definition to_number (s : string) : number :=
  if all_digits s then Num (decimal_value 0 s) else NaN.

(** [a > b] and [a === b] on numbers: every comparison with [NaN] is false. *)
Definition gt (a b : number) : bool :=
  match a, b with
  | Num x, Num y => N.ltb y x
  | _, _ => false
  end.

Definition strict_eq (a b : number) : bool :=
  match a, b with
  | Num x, Num y => N.eqb x y
  | _, _ => false
  end.

(** *** Regular expressions

    The fragment of the pattern language that the script's one pattern is
    written in: a literal character, [.], a greedy [+] on a literal
    character, concatenation and a capture group. *)
Inductive regex : Type :=
| Char (c : ascii)
| AnyChar
| Plus (c : ascii)
| Seq (r1 r2 : regex)
| Group (r : regex).

(** Greedy repetition of [c], zero or more times, backtracking to shorter
    runs when the continuation [k] fails on the longer one. *)
Fixpoint repeat_char {R} (c : ascii) (s : string) (k : string -> option R) : option R :=
  match s with
  | String a s' =>
      if Ascii.eqb a c then
        match repeat_char c s' k with
        | Some r => Some r
        | None => k s
        end
      else k s
  | EmptyString => k s
  end.

(** The first [n] code units of [s]. *)
Fixpoint take (n : nat) (s : string) : string :=
  match n, s with
  | S n', String c s' => String c (take n' s')
  | _, _ => EmptyString
  end.

(** A backtracking matcher in continuation-passing style.  [caps] holds the
    text of the groups closed so far, in order; the groups of the script's
    pattern do not nest, so this is also the order of their numbers. *)
Fixpoint run (r : regex) (s : string) (caps : list string)
    (k : string -> list string -> option (list string)) : option (list string) :=
  match r with
  | Char c =>
      match s with
      | String a s' => if Ascii.eqb a c then k s' caps else None
      | EmptyString => None
      end
  | AnyChar =>
      match s with
      | String a s' => if is_line_terminator a then None else k s' caps
      | EmptyString => None
      end
  | Plus c =>
      match s with
      | String a s' =>
          if Ascii.eqb a c then repeat_char c s' (fun t => k t caps) else None
      | EmptyString => None
      end
  | Seq r1 r2 => run r1 s caps (fun t caps' => run r2 t caps' k)
  | Group r' =>
      run r' s caps
        (fun t caps' => k t (caps' ++ [take (String.length s - String.length t) s]))
  end.

(** [s.match(/^r/)] for a pattern anchored at the start and without the
    global flag: the capture groups of the match at index 0, if there is one. *)
Definition match_anchored (r : regex) (s : string) : option (list string) :=
  run r s [] (fun _ caps => Some caps).

(** *** JSON values

    What [JSON.parse] returns.  A number is held as the text that
    [Number.prototype.toString] prints for it ([0] and [-0] both print ["0"]);
    the script looks at a number only through that text.  The members of an
    object are its own properties, each key once, in the order of
    [Object.keys], which is also the order [JSON.stringify] writes them in. *)
#[local] Unset Elimination Schemes.
Inductive json : Type :=
| JNull
| JBool (b : bool)
| JNumber (text : string)
| JString (s : string)
| JArray (items : list json)
| JObject (members : list (string * json)).
#[local] Set Elimination Schemes.

Definition object : Type := list (string * json).

(** A literal: a value that is neither an array nor an object. *)
Definition is_literal (j : json) : bool :=
  match j with
  | JArray _ | JObject _ => false
  | _ => true
  end.

Definition is_null (j : json) : bool :=
  match j with
  | JNull => true
  | _ => false
  end.

Definition quote : ascii := ascii_of_nat 34.

Definition hex_digit (n : nat) : ascii :=
  nth n ["0"; "1"; "2"; "3"; "4"; "5"; "6"; "7"; "8"; "9";
         "a"; "b"; "c"; "d"; "e"; "f"]%char "0"%char.

(** One code unit inside a JSON string literal, as [JSON.stringify] writes it. *)
Definition escape (c : ascii) : string :=
  let n := nat_of_ascii c in
  if Ascii.eqb c quote then String backslash (String quote "")
  else if Ascii.eqb c backslash then String backslash (String backslash "")
  else if n =? 8 then String backslash "b"
  else if n =? 9 then String backslash "t"
  else if n =? 10 then String backslash "n"
  else if n =? 12 then String backslash "f"
  else if n =? 13 then String backslash "r"
  else if n <? 32 then
    String backslash
      (String "u" (String "0" (String "0"
        (String (hex_digit (n / 16)) (String (hex_digit (n mod 16)) "")))))
  else String c "".

Fixpoint escape_all (s : string) : string :=
  match s with
  | EmptyString => EmptyString
  | String c s' => (escape c ++ escape_all s')%string
  end.

Definition quote_string (s : string) : string :=
  String quote (escape_all s ++ String quote "")%string.

(** [JSON.stringify(j)] for a parsed value, without indentation.  A number
    that is not finite is written as [null]. *)
Fixpoint stringify (j : json) : string :=
  match j with
  | JNull => "null"
  | JBool true => "true"
  | JBool false => "false"
  | JNumber text =>
      if String.eqb text "Infinity" || String.eqb text "-Infinity"
      then "null" else text
  | JString s => quote_string s
  | JArray items => ("[" ++ String.concat "," (map stringify items) ++ "]")%string
  | JObject members =>
      ("{" ++ String.concat ","
                (map (fun kv => quote_string (fst kv) ++ ":" ++ stringify (snd kv))
                     members)
           ++ "}")%string
  end.

(** *** Objects and the prototype chain

    An object made by [JSON.parse] or by the literal [{}] inherits from
    [Object.prototype].  [k in o] and [o[k]] look at the object's own
    properties first and at the prototype's after. *)

(** The function-valued properties of [Object.prototype]. *)
Definition prototype_functions : list string :=
  ["constructor"; "hasOwnProperty"; "isPrototypeOf"; "propertyIsEnumerable";
   "toLocaleString"; "toString"; "valueOf";
   "__defineGetter__"; "__defineSetter__"; "__lookupGetter__"; "__lookupSetter__"].

Definition mem (k : string) (l : list string) : bool := existsb (String.eqb k) l.

(** The own property [k] of [o] ([None] when there is none). *)
Fixpoint own (o : object) (k : string) : option json :=
  match o with
  | [] => None
  | (k', v) :: o' => if String.eqb k k' then Some v else own o' k
  end.

(** [Object.keys(o)]. *)
Definition keys (o : object) : list string := map fst o.

(** What a property read can give: a parsed value, [undefined], one of the
    functions of [Object.prototype], or [Object.prototype] itself (the value
    of the inherited accessor [__proto__]). *)
Inductive value : Type :=
| Undefined
| Parsed (j : json)
| BuiltinFunction
| ObjectPrototype.

(** [k] names a property of [Object.prototype]. *)
Definition inherited (k : string) : bool :=
  String.eqb k "__proto__" || mem k prototype_functions.

(** [k in o]. *)
Definition has_property (o : object) (k : string) : bool :=
  match own o k with
  | Some _ => true
  | None => inherited k
  end.

(** [o[k]]. *)
Definition get (o : object) (k : string) : value :=
  match own o k with
  | Some v => Parsed v
  | None =>
      if String.eqb k "__proto__" then ObjectPrototype
      else if mem k prototype_functions then BuiltinFunction
      else Undefined
  end.

(** [JSON.stringify(v)]: a string, or [undefined] ([None]) for [undefined]
    and for a function.  [Object.prototype] has no enumerable property. *)
Definition JSON_stringify (v : value) : option string :=
  match v with
  | Undefined => None
  | Parsed j => Some (stringify j)
  | BuiltinFunction => None
  | ObjectPrototype => Some "{}"
  end.

(** [a !== b] on the results of [JSON.stringify]. *)
Definition strict_neq (a b : option string) : bool :=
  match a, b with
  | Some x, Some y => negb (String.eqb x y)
  | None, None => false
  | _, _ => true
  end.

(** A statement either returns a value or throws a [TypeError]. *)
Inductive result (A : Type) : Type :=
| Returns (a : A)
| Throws.
Arguments Returns {A} a.
Arguments Throws {A}.

(** [v.enum].  Reading a property of [null] or [undefined] throws; an object
    gives its own member, and no prototype (of objects, arrays, strings,
    numbers, booleans or functions) has a property of that name. *)
Definition enum_of (v : value) : result value :=
  match v with
  | Undefined => Throws
  | Parsed JNull => Throws
  | Parsed (JObject members) => Returns (get members "enum")
  | Parsed _ => Returns Undefined
  | BuiltinFunction => Returns Undefined
  | ObjectPrototype => Returns Undefined
  end.

(** *** Sets

    [Set] compares with SameValueZero: primitives by value, arrays and
    objects by identity.  The values the script puts in a set and the values
    it looks up in it come from different arrays of freshly parsed values, so
    an array or an object is never the same as another one. *)
Definition same_value_zero (a b : json) : bool :=
  match a, b with
  | JNull, JNull => true
  | JBool x, JBool y => Bool.eqb x y
  | JNumber x, JNumber y => String.eqb x y
  | JString x, JString y => String.eqb x y
  | _, _ => false
  end.

(** A set is the list of its elements in insertion order. *)
Definition set_has (s : list json) (v : json) : bool :=
  existsb (same_value_zero v) s.

Definition set_add (s : list json) (v : json) : list json :=
  if set_has s v then s else s ++ [v].

(** [new Set(items)] and [s.size]. *)
Definition new_Set (items : list json) : list json := fold_left set_add items [].

Definition size (s : list json) : nat := List.length s.

End JS.

(** ** Version strings: [parse] and [cmp] *)

Module SemVer.
Import JS.

Record triple : Type := { M : number; m : number; p : number }.

(** The results of [cmp]: ['invalid'], ['none-or-down'], ['patch'], ['minor']
    and ['major']. *)
Inductive Bump : Type :=
| invalid
| none_or_down
| bump_patch
| bump_minor
| bump_major.

(** The pattern of [parse] as the script writes it,
    [/^(\\d+)\\.(\\d+)\\.(\\d+)/].  Inside a regular expression literal
    [\\] is an escaped backslash, so [\\d+] is a backslash followed by one or
    more letters [d], and [\\.] is a backslash followed by any character. *)
Definition d : ascii := ascii_of_nat 100.

Definition component : regex := Group (Seq (Char backslash) (Plus d)).
Definition separator : regex := Seq (Char backslash) AnyChar.

Definition version_pattern : regex :=
  Seq component (Seq separator (Seq component (Seq separator component))).

(** [function parse(v)]: [null] is [None]. *)
Definition parse (v : string) : option triple :=
  match match_anchored version_pattern v with
  | Some [m1; m2; m3] =>
      Some {| M := to_number m1; m := to_number m2; p := to_number m3 |}
  | _ => None
  end.

(** [function cmp(oldV, newV)]. *)
Definition cmp (oldV newV : string) : Bump :=
  match parse oldV, parse newV with
  | Some o, Some n =>
      if gt (M n) (M o) then bump_major
      else if strict_eq (M n) (M o) && gt (m n) (m o) then bump_minor
      else if strict_eq (M n) (M o) && strict_eq (m n) (m o) && gt (p n) (p o)
           then bump_patch
      else none_or_down
  | _, _ => invalid
  end.

End SemVer.

(** ** Severities and their aggregation: [rank], [bumpFrom] and the loop *)

Module Lattice.

(** The results of [classify] and the starting level of the loop: ['none'],
    ['patch'], ['minor'] and ['major']. *)
Inductive Severity : Type :=
| none
| patch
| minor
| major.

(** [function rank(a)]: the lookup in [{none:0,patch:1,minor:2,major:3}]. *)
Definition rank (a : Severity) : nat :=
  match a with
  | none => 0
  | patch => 1
  | minor => 2
  | major => 3
  end.

(** [function bumpFrom(a,b)]. *)
Definition bumpFrom (a b : Severity) : Severity :=
  if rank b <=? rank a then a else b.

(** The loop over the changed schema files, on the severities [classify]
    gave them, in the order of the files:
    [let required='none'; for (...) required = bumpFrom(required, c)]. *)
Definition highest_required (cs : list Severity) : Severity :=
  fold_left bumpFrom cs none.

(** The maximum of two severities in the order none < patch < minor < major,
    written out case by case. *)
Definition max_severity (a b : Severity) : Severity :=
  match a, b with
  | major, _ | _, major => major
  | minor, _ | _, minor => minor
  | patch, _ | _, patch => patch
  | none, none => none
  end.

End Lattice.

(** ** The schema classifier: [classify] *)

Module Classifier.
Import JS Lattice.

(** A schema document, as far as [classify] reads it: the object [properties]
    and the array [required].  [None] stands for a member that is missing or
    [null], which [??] replaces by [{}] and [[]].  These are the documents of
    the specification's data model: a [properties] member that is not an
    object, or a [required] member that is not an array, is outside the model.
    The names in [required] are arbitrary parsed values. *)
Record SchemaDocument : Type := {
  properties : option object;
  required : option (list json)
}.

(** [x ?? dflt]. *)
Definition nullish {A} (x : option A) (dflt : A) : A :=
  match x with
  | Some a => a
  | None => dflt
  end.

(** [Array.isArray(v.enum) ? new Set(v.enum) : null]. *)
Definition enum_set (v : value) : result (option (list json)) :=
  match enum_of v with
  | Throws => Throws
  | Returns (Parsed (JArray items)) => Returns (Some (new_Set items))
  | Returns _ => Returns None
  end.

(** The body of the second loop, for the key [k] of [nP]: [None] when the
    loop goes on with the next key, [Some r] when [classify] ends with [r]. *)
Definition shape_step (oP nP : object) (k : string) : option (result Severity) :=
  if has_property oP k then
    let o := JSON_stringify (get oP k) in
    let n := JSON_stringify (get nP k) in
    if strict_neq o n then
      match enum_set (get oP k) with
      | Throws => Some Throws
      | Returns oe =>
          match enum_set (get nP k) with
          | Throws => Some Throws
          | Returns ne =>
              match oe, ne with
              | Some oe, Some ne =>
                  let sup := forallb (fun v => set_has ne v) oe in
                  if sup && (size oe <=? size ne) then None
                  else Some (Returns major)
              | _, _ => Some (Returns major)
              end
          end
      end
    else None
  else None.

(** [for (const k of ks) if (k in oP) { ... }]. *)
Fixpoint scan (oP nP : object) (ks : list string) : option (result Severity) :=
  match ks with
  | [] => None
  | k :: ks' =>
      match shape_step oP nP k with
      | Some r => Some r
      | None => scan oP nP ks'
      end
  end.

(** [function classify(oldJs, newJs)]; [oldJs] is [None] when it is [null]. *)
Definition classify (oldJs : option SchemaDocument) (newJs : SchemaDocument)
  : result Severity :=
  match oldJs with
  | None => Returns minor
  | Some oldJs =>
      let oP := nullish (properties oldJs) [] in
      let nP := nullish (properties newJs) [] in
      let oR := new_Set (nullish (required oldJs) []) in
      let nR := new_Set (nullish (required newJs) []) in
      if existsb (fun k => negb (has_property nP k)) (keys oP) then Returns major
      else
        match scan oP nP (keys nP) with
        | Some r => r
        | None =>
            if existsb (fun k => negb (set_has oR k)) nR then Returns major
            else
              let added := filter (fun k => negb (has_property oP k)) (keys nP) in
              if negb (List.length added =? 0) then
                if existsb (fun k => set_has nR (JString k)) added
                then Returns major else Returns minor
              else Returns patch
        end
  end.

(** *** Vocabulary of the specification *)

(** The property mapping of a document and the entries of its [required]
    list, empty when the member is missing. *)
Definition properties_of (d : SchemaDocument) : object := nullish (properties d) [].

Definition required_of (d : SchemaDocument) : list json := nullish (required d) [].

(** [k] is a property name of the mapping [o]. *)
Definition declares (o : object) (k : string) : bool :=
  match own o k with
  | Some _ => true
  | None => false
  end.

(** The property names of the old mapping that the new one lacks, and the
    names of the new mapping that the old one lacks. *)
Definition removed (oP nP : object) : list string :=
  filter (fun k => negb (declares nP k)) (keys oP).

Definition added (oP nP : object) : list string :=
  filter (fun k => negb (declares oP k)) (keys nP).

(** The property [k], when both mappings have it, is written the same way by
    [JSON.stringify] in both. *)
Definition same_shape (oP nP : object) (k : string) : bool :=
  match own oP k, own nP k with
  | Some a, Some b => String.eqb (stringify a) (stringify b)
  | _, _ => true
  end.

Definition shapes_kept (oP nP : object) : bool :=
  forallb (same_shape oP nP) (keys nP).

(** The entry [r] is in the new [required] list and not in the old one. *)
Definition newly_required (old new : SchemaDocument) (r : json) : bool :=
  set_has (required_of new) r && negb (set_has (required_of old) r).

(** No property of the document has [null] for its schema. *)
Definition no_null_schema (d : SchemaDocument) : bool :=
  forallb (fun kv => negb (is_null (snd kv))) (properties_of d).

Definition no_null_schemas (old : option SchemaDocument) : bool :=
  match old with
  | Some o => no_null_schema o
  | None => true
  end.

(** Some entry of the new [required] list is missing from the old one; some
    added property name is in the new [required] list. *)
Definition requires_more (old new : SchemaDocument) : bool :=
  existsb (fun r => negb (set_has (required_of old) r)) (required_of new).

Definition requires_added (old new : SchemaDocument) : bool :=
  existsb (fun k => set_has (required_of new) (JString k))
    (added (properties_of old) (properties_of new)).

(** Deep structural equality of parsed values: arrays item by item, objects
    member by member whatever the order of the members. *)
Fixpoint deep_equal (a b : json) : bool :=
  match a, b with
  | JNull, JNull => true
  | JBool x, JBool y => Bool.eqb x y
  | JNumber x, JNumber y => String.eqb x y
  | JString x, JString y => String.eqb x y
  | JArray xs, JArray ys =>
      (fix items xs ys :=
         match xs, ys with
         | [], [] => true
         | x :: xs', y :: ys' => deep_equal x y && items xs' ys'
         | _, _ => false
         end) xs ys
  | JObject xs, JObject ys =>
      (List.length xs =? List.length ys) &&
      (fix members xs :=
         match xs with
         | [] => true
         | kv :: xs' =>
             match own ys (fst kv) with
             | Some w => deep_equal (snd kv) w
             | None => false
             end && members xs'
         end) xs
  | _, _ => false
  end.

(** The document as the JSON object it was parsed from. *)
Definition document (d : SchemaDocument) : json :=
  JObject
    (match properties d with Some o => [("properties", JObject o)] | None => [] end
     ++ match required d with Some r => [("required", JArray r)] | None => [] end).

End Classifier.

(** ** Documents used in the examples below *)

Module Examples.
Import JS Classifier.

Definition string_schema : json := JObject [("type", JString "string")].

Definition enum_schema (values : list string) : json :=
  JObject [("type", JString "string"); ("enum", JArray (map JString values))].

(** [{"properties":{"a":{"type":"string"}},"required":[]}] and
    [{"properties":{"a":{...},"b":{...}},"required":["a"]}]: the property [b]
    is added and the existing property [a] becomes required. *)
Definition optional_a : SchemaDocument :=
  {| properties := Some [("a", string_schema)]; required := Some [] |}.

Definition required_a_added_b : SchemaDocument :=
  {| properties := Some [("a", string_schema); ("b", string_schema)];
     required := Some [JString "a"] |}.

(** [{"properties":{"a":{...},"b":{...}},"required":[]}]: only the property
    [b] is added. *)
Definition optional_a_b : SchemaDocument :=
  {| properties := Some [("a", string_schema); ("b", string_schema)];
     required := Some [] |}.

(** [{"properties":{"constructor":{"type":"string"}}}] and
    [{"properties":{}}]: the property [constructor] is removed. *)
Definition with_constructor : SchemaDocument :=
  {| properties := Some [("constructor", string_schema)]; required := None |}.

Definition without_properties : SchemaDocument :=
  {| properties := Some []; required := None |}.

(** Two documents that differ in the order of the members of one schema:
    [{"properties":{"f":{"type":"string","format":"date"}}}] and
    [{"properties":{"f":{"format":"date","type":"string"}}}]. *)
Definition type_then_format : SchemaDocument :=
  {| properties :=
       Some [("f", JObject [("type", JString "string"); ("format", JString "date")])];
     required := None |}.

Definition format_then_type : SchemaDocument :=
  {| properties :=
       Some [("f", JObject [("format", JString "date"); ("type", JString "string")])];
     required := None |}.

(** [{"properties":{"a":null}}] and [{"properties":{"a":{"type":"string"}}}]. *)
Definition null_schema_a : SchemaDocument :=
  {| properties := Some [("a", JNull)]; required := None |}.

Definition string_schema_a : SchemaDocument :=
  {| properties := Some [("a", string_schema)]; required := None |}.

(** The enum of the property [status] widened from [A, B] to [A, B, C]. *)
Definition status_AB : SchemaDocument :=
  {| properties := Some [("id", string_schema); ("status", enum_schema ["A"; "B"])];
     required := Some [JString "id"] |}.

Definition status_ABC : SchemaDocument :=
  {| properties := Some [("id", string_schema); ("status", enum_schema ["A"; "B"; "C"])];
     required := Some [JString "id"] |}.

End Examples.

(** ** The decision block

    The script ends in four [if] statements, each of which leaves through
    [ok] or [fail], that is through [process.exit].  A computation of the
    script is modelled by the lines it has written to the console and either
    a value to go on with or the exit status it stopped with. *)

Module Policy.
Import SemVer Lattice.

Inductive console : Type :=
| log
| warn
| error.

Definition line : Type := (console * string)%type.

Definition script (A : Type) : Type := (list line * (A + Z))%type.

Definition ret {A} (a : A) : script A := ([], inl a).

Definition bind {A B} (c : script A) (f : A -> script B) : script B :=
  match c with
  | (out, inl a) => let (out', r) := f a in (out ++ out', r)
  | (out, inr status) => (out, inr status)
  end.

Notation "c1 ;; c2" := (bind c1 (fun _ => c2)) (at level 61, right associativity).

Definition print (c : console) (text : string) : script unit := ([(c, text)], inl tt).

Definition process_exit {A} (status : Z) : script A := ([], inr status).

(** [if (b) c], without an [else]. *)
Definition when (b : bool) (c : script unit) : script unit :=
  if b then c else ret tt.

(** [function fail(m)] and [function ok(m)].  The marks before the message
    are the bytes of the source text. *)
Definition fail (msg : string) : script unit :=
  print error ("❌ " ++ msg)%string ;; process_exit 1.

Definition ok (msg : string) : script unit :=
  print log ("✅ " ++ msg)%string ;; process_exit 0.

Definition Severity_eqb (a b : Severity) : bool := rank a =? rank b.

Definition Bump_eqb (a b : Bump) : bool :=
  match a, b with
  | invalid, invalid
  | none_or_down, none_or_down
  | bump_patch, bump_patch
  | bump_minor, bump_minor
  | bump_major, bump_major => true
  | _, _ => false
  end.

(** [list.includes(bump)]. *)
Definition includes (l : list Bump) (b : Bump) : bool := existsb (Bump_eqb b) l.

Definition warning : string := "⚠️ non-patch bump without schema change".

(** The four [if] statements that end the script. *)
Definition decision (required : Severity) (bump : Bump) : script unit :=
  when (Severity_eqb required none)
    (when (negb (Bump_eqb bump none_or_down) && negb (Bump_eqb bump bump_patch))
       (print warn warning) ;;
     ok "no schema changes") ;;
  when (Severity_eqb required patch)
    (if includes [bump_patch; bump_minor; bump_major] bump
     then ok "patch ok" else fail "patch change needs version bump") ;;
  when (Severity_eqb required minor)
    (if includes [bump_minor; bump_major] bump
     then ok "minor ok" else fail "additive change needs minor bump") ;;
  when (Severity_eqb required major)
    (if Bump_eqb bump bump_major
     then ok "major ok" else fail "breaking change needs MAJOR bump").

(** What a run leaves behind: the console lines and the exit status.  A
    script that runs to its end exits with status 0. *)
Record Verdict : Type := { output : list line; status : Z }.

Definition finish (c : script unit) : Verdict :=
  match c with
  | (out, inr st) => {| output := out; status := st |}
  | (out, inl _) => {| output := out; status := 0 |}
  end.

Definition Decide (required : Severity) (bump : Bump) : Verdict :=
  finish (decision required bump).

(** The verdict of [ok(m)], with the warning lines [ws] before it, and of
    [fail(m)]. *)
Definition passes (ws : list string) (msg : string) : Verdict :=
  {| output := map (fun w => (warn, w)) ws ++ [(log, ("✅ " ++ msg)%string)]; status := 0 |}.

Definition fails (msg : string) : Verdict :=
  {| output := [(error, ("❌ " ++ msg)%string)]; status := 1 |}.

End Policy.

(** ** The loop over the changed schema files *)

Module Script.
Import JS Lattice Classifier.

(** [for (const f of schemaFiles) { ...; const c = classify(oldJ, newJ);
    required = bumpFrom(required, c); ... }], on the old and new document of
    each file and from the level [required]; the line the loop logs for each
    file is left out.  An exception of [classify] ends the script. *)
Fixpoint schema_loop (files : list (option SchemaDocument * SchemaDocument))
    (required : Severity) : result Severity :=
  match files with
  | [] => Returns required
  | (oldJ, newJ) :: files' =>
      match classify oldJ newJ with
      | Returns c => schema_loop files' (bumpFrom required c)
      | Throws => Throws
      end
  end.

End Script.

(** ** The changed files: [changed] and [schemaFiles] *)

Module Files.
Import JS.

Definition newline : ascii := ascii_of_nat 10.

(** The white space and line terminators that [trim] strips, among the code
    units of the model: tab, line feed, vertical tab, form feed, carriage
    return, space and no-break space. *)
Definition is_white_space (c : ascii) : bool :=
  let n := nat_of_ascii c in
  (n =? 9) || (n =? 10) || (n =? 11) || (n =? 12) || (n =? 13) || (n =? 32) || (n =? 160).

Fixpoint trim_start (s : string) : string :=
  match s with
  | EmptyString => EmptyString
  | String c s' => if is_white_space c then trim_start s' else s
  end.

Fixpoint trim_end (s : string) : string :=
  match s with
  | EmptyString => EmptyString
  | String c s' =>
      match trim_end s' with
      | EmptyString => if is_white_space c then EmptyString else String c EmptyString
      | t => String c t
      end
  end.

(** [s.trim()]. *)
Definition trim (s : string) : string := trim_end (trim_start s).

(** [s.split(sep)] for a separator of one code unit: the pieces between the
    separators, one piece (the empty one) for the empty string. *)
Fixpoint split (sep : ascii) (s : string) : list string :=
  match s with
  | EmptyString => [EmptyString]
  | String c s' =>
      if Ascii.eqb c sep then EmptyString :: split sep s'
      else
        match split sep s' with
        | piece :: pieces => String c piece :: pieces
        | [] => [String c EmptyString]
        end
  end.

(** [Boolean(s)] for a string: false for the empty string only. *)
Definition Boolean (s : string) : bool := negb (String.eqb s EmptyString).

(** [const changed = () => execSync(...).toString().trim().split('\n')
    .filter(Boolean)], on the text the command printed. *)
Definition changed (stdout : string) : list string :=
  filter Boolean (split newline (trim stdout)).

(** [f.startsWith(p)]. *)
Definition startsWith (f p : string) : bool := String.prefix p f.

(** [files.filter(f=>f.startsWith('contracts/schema/'))]. *)
Definition schemaFiles (files : list string) : list string :=
  filter (fun f => startsWith f "contracts/schema/") files.

(** What [git diff --name-only] prints for a list of names: each name
    followed by a line feed. *)
Fixpoint unlines (names : list string) : string :=
  match names with
  | [] => EmptyString
  | f :: names' => (f ++ String newline (unlines names'))%string
  end.

Fixpoint has_newline (s : string) : bool :=
  match s with
  | EmptyString => false
  | String c s' => Ascii.eqb c newline || has_newline s'
  end.

Definition starts_with_white_space (s : string) : bool :=
  match s with
  | EmptyString => false
  | String c _ => is_white_space c
  end.

Fixpoint ends_with_white_space (s : string) : bool :=
  match s with
  | EmptyString => false
  | String c EmptyString => is_white_space c
  | String _ s' => ends_with_white_space s'
  end.

(** Nothing but white space. *)
Fixpoint blank (s : string) : bool :=
  match s with
  | EmptyString => true
  | String c s' => is_white_space c && blank s'
  end.

(** A file name that survives [changed] as it is: not empty, on one line,
    with no white space at either end. *)
Definition plain_name (f : string) : bool :=
  Boolean f && negb (has_newline f)
  && negb (starts_with_white_space f) && negb (ends_with_white_space f).

End Files.

(** ** The script from its first statement to its exit *)

Module Main.
Import JS SemVer Lattice Classifier Policy Files.

Definition and_then {A B} (r : result A) (f : A -> result B) : result B :=
  match r with
  | Returns a => f a
  | Throws => Throws
  end.

(** [String(j)] and [`${j}`] for a parsed value.  An array is the list of its
    items separated by commas, [null] items giving the empty string.  An
    object is ["[object Object]"], unless it has a member [toString]: that
    member is not a function, and the conversion then throws a [TypeError]. *)
Fixpoint to_String (j : json) : result string :=
  match j with
  | JNull => Returns "null"
  | JBool true => Returns "true"
  | JBool false => Returns "false"
  | JNumber text => Returns text
  | JString s => Returns s
  | JArray items =>
      (fix join (items : list json) : result string :=
         match items with
         | [] => Returns EmptyString
         | x :: rest =>
             and_then (match x with JNull => Returns EmptyString | _ => to_String x end)
               (fun a =>
                  match rest with
                  | [] => Returns a
                  | _ :: _ =>
                      and_then (join rest) (fun b => Returns (a ++ "," ++ b)%string)
                  end)
         end) items
  | JObject members =>
      if declares members "toString" then Throws else Returns "[object Object]"
  end.

(** [String(v)] for a version, [None] being [undefined]. *)
Definition String_of (v : option json) : result string :=
  match v with
  | None => Returns "undefined"
  | Some j => to_String j
  end.

(** [pkg.version] for a parsed [package.json]: reading a property of [null]
    throws, an object gives its member or [undefined] (no prototype has a
    property of that name), and so does every other value. *)
Definition version_of (pkg : json) : result (option json) :=
  match pkg with
  | JNull => Throws
  | JObject members => Returns (own members "version")
  | _ => Returns None
  end.

(** [let oldV='0.0.0'; try{ oldV = JSON.parse(...).version; }catch{}], where
    [pkg] is what [JSON.parse(execSync(...))] gives or throws. *)
Definition old_version (pkg : result json) : option json :=
  match and_then pkg version_of with
  | Returns v => v
  | Throws => Some (JString "0.0.0")
  end.

(** [JSON.parse(fs.readFileSync('contracts/package.json','utf-8')).version]. *)
Definition new_version (pkg : result json) : result (option json) :=
  and_then pkg version_of.

(** The strings that stand for the severities and the bumps. *)
Definition Severity_name (s : Severity) : string :=
  match s with
  | none => "none"
  | patch => "patch"
  | minor => "minor"
  | major => "major"
  end.

Definition Bump_name (b : Bump) : string :=
  match b with
  | invalid => "invalid"
  | none_or_down => "none-or-down"
  | bump_patch => "patch"
  | bump_minor => "minor"
  | bump_major => "major"
  end.

(** What the script reads from outside: the text [git diff --name-only]
    prints, the old revision of a file ([readJSONAtRef], [null] when [git show]
    or [JSON.parse] fails), its working copy
    ([JSON.parse(fs.readFileSync(f,'utf-8'))], which throws when the file is
    missing or is not JSON), and the two parsed [contracts/package.json]. *)
Record World : Type := {
  git_diff : string;
  old_revision : string -> option SchemaDocument;
  working_copy : string -> result SchemaDocument;
  old_package : result json;
  new_package : result json
}.

(** The loop over [schemaFiles] with the line it logs for each file. *)
Fixpoint classify_files (w : World) (files : list string) (required : Severity)
  : list line * result Severity :=
  match files with
  | [] => ([], Returns required)
  | f :: files' =>
      let oldJ := old_revision w f in
      match working_copy w f with
      | Throws => ([], Throws)
      | Returns newJ =>
          match classify oldJ newJ with
          | Throws => ([], Throws)
          | Returns c =>
              let (out, r) := classify_files w files' (bumpFrom required c) in
              ((log, ("Schema change " ++ f ++ ": " ++ Severity_name c)%string) :: out, r)
          end
      end
  end.

(** How a run ends: through [process.exit], or with an exception that
    nothing catches (what the runtime prints for it is not among the lines
    of the run). *)
Inductive ending : Type :=
| Exited (status : Z)
| Uncaught.

(** The whole script. *)
Definition main (w : World) : list line * ending :=
  let files := changed (git_diff w) in
  match classify_files w (schemaFiles files) none with
  | (out, Throws) => (out, Uncaught)
  | (out, Returns required) =>
      let oldV := old_version (old_package w) in
      match new_version (new_package w) with
      | Throws => (out, Uncaught)
      | Returns newV =>
          match String_of oldV, String_of newV with
          | Returns so, Returns sn =>
              let bump := cmp so sn in
              let verdict := Decide required bump in
              (out
               ++ [(log, ("Highest required: " ++ Severity_name required)%string);
                   (log, ("contracts version: " ++ so ++ " -> " ++ sn
                          ++ " (" ++ Bump_name bump ++ ")")%string)]
               ++ output verdict,
               Exited (status verdict))
          | _, _ => (out, Uncaught)
          end
      end
  end.

(** The line the loop logs for a file and its severity. *)
Definition schema_line (fc : string * Severity) : line :=
  (log, ("Schema change " ++ fst fc ++ ": " ++ Severity_name (snd fc))%string).

(** The changed schema file [f] was read and classified as [c]. *)
Definition classified (w : World) (f : string) (c : Severity) : Prop :=
  exists newJ,
    working_copy w f = Returns newJ /\ classify (old_revision w f) newJ = Returns c.

End Main.

(** ** Runs used in the examples below *)

Module Runs.
Import JS Classifier Files Main Examples.

Definition package (version : string) : json :=
  JObject [("name", JString "contracts"); ("version", JString version)].

(** A schema file gained an optional property and the version went from
    1.0.0 to 1.1.0. *)
Definition additive_run : World :=
  {| git_diff := unlines ["README.md"; "contracts/schema/offer.json"];
     old_revision := fun _ => Some optional_a;
     working_copy := fun _ => Returns optional_a_b;
     old_package := Returns (package "1.0.0");
     new_package := Returns (package "1.1.0") |}.

(** Only the README changed. *)
Definition readme_run : World :=
  {| git_diff := unlines ["README.md"];
     old_revision := fun _ => None;
     working_copy := fun _ => Throws;
     old_package := Returns (package "1.0.0");
     new_package := Returns (package "1.0.0") |}.

(** A schema file was deleted: it is in the diff and not in the working copy. *)
Definition deletion_run : World :=
  {| git_diff := unlines ["contracts/schema/offer.json"];
     old_revision := fun _ => Some optional_a;
     working_copy := fun _ => Throws;
     old_package := Returns (package "1.0.0");
     new_package := Returns (package "2.0.0") |}.

End Runs.

(** ** Vocabulary of the further properties *)

Module Vocabulary.
Import JS SemVer Lattice Classifier.

(** [n] times the code unit [c]. *)
Fixpoint copies (c : ascii) (n : nat) : string :=
  match n with
  | 0 => EmptyString
  | S n' => String c (copies c n')
  end.

(** A backslash and one or more letters [d]. *)
Definition escaped_ds (n : nat) : string := String backslash (copies d (S n)).

(** A backslash and the code unit [c]. *)
Definition escaped (c : ascii) : string := String backslash (String c EmptyString).

(** How far a bump goes in the order of the severities. *)
Definition bump_level (b : Bump) : nat :=
  match b with
  | invalid | none_or_down => 0
  | bump_patch => 1
  | bump_minor => 2
  | bump_major => 3
  end.

(** The [enum] array of a schema, when the schema is an object that has one. *)
Definition enum_values (j : json) : option (list json) :=
  match j with
  | JObject members =>
      match own members "enum" with
      | Some (JArray items) => Some items
      | _ => None
      end
  | _ => None
  end.

(** Both schemas have an [enum] array and every value of the old one is a
    value of the new one (by SameValueZero). *)
Definition widens (a b : json) : bool :=
  match enum_values a, enum_values b with
  | Some oe, Some ne => forallb (fun v => set_has ne v) oe
  | _, _ => false
  end.

End Vocabulary.

(** * Properties *)

(** ** Version strings *)

Module SemVerFacts.
Import JS SemVer.

(** Where the greedy repetition hands over to its continuation, the rest of
    the subject is no longer than where it started. *)
Lemma repeat_char_inv {R} (c : ascii) (s : string) (k : string -> option R) (r : R) :
  repeat_char c s k = Some r ->
  exists t, k t = Some r /\ String.length t <= String.length s.
Proof.
  induction s as [|a s' IH]; simpl; intros H.
  - exists EmptyString. split; [assumption | apply le_n].
  - destruct (Ascii.eqb a c).
    + destruct (repeat_char c s' k) as [r'|] eqn:E.
      * injection H as <-. destruct (IH eq_refl) as (t & Ht & Hl).
        exists t. split; [assumption | lia].
      * exists (String a s'). split; [assumption | simpl; lia].
    + exists (String a s'). split; [assumption | simpl; lia].
Qed.

(** A successful match of [(\\d+)] records a capture that starts with a
    backslash. *)
Lemma component_inv s caps k r :
  run component s caps k = Some r ->
  exists t rest, k t (caps ++ [String backslash rest]) = Some r.
Proof.
  unfold component. simpl.
  destruct s as [|a s']; [discriminate|].
  destruct (Ascii.eqb a backslash) eqn:Ea; [|discriminate].
  apply Ascii.eqb_eq in Ea. subst a.
  destruct s' as [|b s'']; [discriminate|].
  destruct (Ascii.eqb b d); [|discriminate].
  intros H. apply repeat_char_inv in H. destruct H as (t & Ht & Hl).
  cbv beta in Ht.
  replace (String.length (String backslash (String b s'')) - String.length t)
    with (S (S (String.length s'') - String.length t)) in Ht
    by (cbn [String.length]; lia).
  cbn [take] in Ht. eauto.
Qed.

Lemma separator_inv s caps k r :
  run separator s caps k = Some r -> exists t, k t caps = Some r.
Proof.
  unfold separator. simpl.
  destruct s as [|a s']; [discriminate|].
  destruct (Ascii.eqb a backslash); [|discriminate].
  destruct s' as [|b s'']; [discriminate|].
  destruct (is_line_terminator b); [discriminate|].
  intros H. exists s''. exact H.
Qed.

Lemma to_number_backslash rest : to_number (String backslash rest) = NaN.
Proof. reflexivity. Qed.

(** Whatever [parse] accepts, it reads as three [NaN]s. *)
Lemma parse_gives_NaN v t :
  parse v = Some t -> t = {| M := NaN; m := NaN; p := NaN |}.
Proof.
  unfold parse, match_anchored, version_pattern.
  destruct (run _ v [] _) as [caps|] eqn:E; [|discriminate].
  change (run (Seq component (Seq separator (Seq component (Seq separator component)))) v [] (fun _ caps => Some caps))
    with (run component v []
            (fun t1 c1 => run separator t1 c1
               (fun t2 c2 => run component t2 c2
                  (fun t3 c3 => run separator t3 c3
                     (fun t4 c4 => run component t4 c4 (fun _ caps => Some caps))))))
    in E.
  apply component_inv in E. destruct E as (t1 & r1 & E).
  apply separator_inv in E. destruct E as (t2 & E).
  apply component_inv in E. destruct E as (t3 & r2 & E).
  apply separator_inv in E. destruct E as (t4 & E).
  apply component_inv in E. destruct E as (t5 & r3 & E).
  injection E as <-. simpl. rewrite !to_number_backslash.
  intros H. injection H as <-. reflexivity.
Qed.

(** A string that [parse] accepts starts with a backslash: no string that
    starts with a digit is a version for [parse]. *)
Lemma parse_needs_backslash v t :
  parse v = Some t -> exists rest, v = String backslash rest.
Proof.
  unfold parse, match_anchored, version_pattern, component. simpl.
  destruct v as [|a v']; [discriminate|].
  destruct (Ascii.eqb a backslash) eqn:Ea; [|discriminate].
  apply Ascii.eqb_eq in Ea. subst a. intros _. eexists. reflexivity.
Qed.

(** [cmp] never reports a bump: its result is [invalid] or [none-or-down]
    for every pair of strings. *)
Lemma cmp_never_a_bump oldV newV :
  cmp oldV newV = invalid \/ cmp oldV newV = none_or_down.
Proof.
  unfold cmp.
  destruct (parse oldV) as [o|] eqn:Eo; [|left; reflexivity].
  destruct (parse newV) as [n|] eqn:En; [|left; reflexivity].
  apply parse_gives_NaN in Eo, En. subst o n. right. reflexivity.
Qed.

(** C1: on the version pairs of the specification, which it classifies as
    major, minor, patch, none-or-down, none-or-down and invalid, [cmp]
    answers [invalid] six times, because [parse] rejects every string that
    starts with a digit, ["1.2.3"] and ["1.2.3-beta"] included: the pattern of
    [parse] asks for a backslash and the letter [d] where digits were meant. *)
Theorem cmp_on_the_specified_pairs :
  cmp "1.2.3" "2.0.0" = invalid /\
  cmp "1.2.3" "1.3.0" = invalid /\
  cmp "1.2.3" "1.2.4" = invalid /\
  cmp "1.2.3" "1.2.3" = invalid /\
  cmp "1.2.3" "1.2.2" = invalid /\
  cmp "x.y.z" "1.0.0" = invalid /\
  parse "1.2.3" = None /\
  parse "1.2.3-beta" = None.
Proof. repeat split; reflexivity. Qed.

End SemVerFacts.

(** ** Aggregation of severities *)

Module LatticeFacts.
Import Lattice.

Lemma rank_inj a b : rank a = rank b -> a = b.
Proof. destruct a, b; simpl; intros H; try reflexivity; discriminate. Qed.

Lemma bumpFrom_rank a b : rank (bumpFrom a b) = Nat.max (rank a) (rank b).
Proof. destruct a, b; reflexivity. Qed.

Lemma bumpFrom_max a b : bumpFrom a b = max_severity a b.
Proof. destruct a, b; reflexivity. Qed.

Lemma bumpFrom_comm a b : bumpFrom a b = bumpFrom b a.
Proof. apply rank_inj. rewrite !bumpFrom_rank. apply Nat.max_comm. Qed.

Lemma bumpFrom_assoc a b c : bumpFrom (bumpFrom a b) c = bumpFrom a (bumpFrom b c).
Proof. apply rank_inj. rewrite !bumpFrom_rank. symmetry. apply Nat.max_assoc. Qed.

(** The loop started from any level [acc]: its result bounds [acc] and every
    severity it went through, and is one of them. *)
Lemma loop_upper_bound cs : forall acc,
  rank acc <= rank (fold_left bumpFrom cs acc) /\
  forall c, In c cs -> rank c <= rank (fold_left bumpFrom cs acc).
Proof.
  induction cs as [|x cs IH]; intros acc; simpl.
  - split; [apply le_n | intros c []].
  - destruct (IH (bumpFrom acc x)) as [Hacc Hin].
    rewrite bumpFrom_rank in Hacc. split; [lia|].
    intros c [<- | Hc]; [lia | auto].
Qed.

Lemma loop_attained cs : forall acc,
  fold_left bumpFrom cs acc = acc \/ In (fold_left bumpFrom cs acc) cs.
Proof.
  induction cs as [|x cs IH]; intros acc; simpl.
  - left. reflexivity.
  - destruct (IH (bumpFrom acc x)) as [H | H]; [|right; right; exact H].
    rewrite H. unfold bumpFrom. destruct (rank x <=? rank acc); auto.
Qed.

Lemma loop_permutation cs cs' :
  Permutation cs cs' ->
  forall acc, fold_left bumpFrom cs acc = fold_left bumpFrom cs' acc.
Proof.
  induction 1 as [| x l l' _ IH | x y l | l l' l'' _ IH1 _ IH2]; intros acc; simpl.
  - reflexivity.
  - apply IH.
  - f_equal. rewrite !bumpFrom_assoc. f_equal. apply bumpFrom_comm.
  - rewrite IH1. apply IH2.
Qed.

(** A sequence of severities that holds none but [none] aggregates to [none]
    only when it is empty. *)
Lemma highest_required_none cs :
  (forall c, In c cs -> c <> none) -> highest_required cs = none -> cs = [].
Proof.
  intros Hne H. destruct cs as [|c cs]; [reflexivity|]. exfalso.
  destruct (loop_upper_bound (c :: cs) none) as [_ Hin].
  specialize (Hin c (or_introl eq_refl)). fold (highest_required (c :: cs)) in Hin.
  rewrite H in Hin. apply (Hne c (or_introl eq_refl)).
  apply rank_inj. simpl in *. lia.
Qed.

(** C7: the aggregate of the empty sequence is [none]; the aggregate of a
    non-empty sequence is its maximum in the order none < patch < minor <
    major (an element of the sequence that every element is below); for two
    severities it is their maximum; [bumpFrom] is associative and commutative,
    and the order of the sequence does not change the aggregate. *)
Theorem highest_required_is_the_maximum :
  highest_required [] = none /\
  (forall cs, cs <> [] ->
     In (highest_required cs) cs /\
     forall c, In c cs -> rank c <= rank (highest_required cs)) /\
  (forall a b, highest_required [a; b] = max_severity a b) /\
  (forall a b, rank a = rank b -> a = b) /\
  (forall a b c, bumpFrom (bumpFrom a b) c = bumpFrom a (bumpFrom b c)) /\
  (forall a b, bumpFrom a b = bumpFrom b a) /\
  (forall cs cs', Permutation cs cs' -> highest_required cs = highest_required cs').
Proof.
  split; [reflexivity|]. split; [|split; [|split; [|split; [|split]]]].
  - intros cs Hcs. unfold highest_required.
    destruct (loop_upper_bound cs none) as [_ Hin]. split; [|exact Hin].
    destruct (loop_attained cs none) as [H | H]; [|exact H].
    destruct cs as [|c cs]; [contradiction|].
    assert (Hc : rank c <= rank (fold_left bumpFrom (c :: cs) none))
      by (apply Hin; left; reflexivity).
    rewrite H in Hc |- *. left. apply rank_inj. simpl in *. lia.
  - intros a b. destruct a, b; reflexivity.
  - exact rank_inj.
  - exact bumpFrom_assoc.
  - exact bumpFrom_comm.
  - intros cs cs' H. apply loop_permutation. exact H.
Qed.

Lemma highest_required_is_the_maximum_witness :
  Permutation [patch; major; minor] [minor; patch; major] /\
  highest_required [patch; major; minor] = highest_required [minor; patch; major] /\
  In (highest_required [patch; major; minor]) [patch; major; minor].
Proof.
  assert (HP : Permutation [patch; major; minor] [minor; patch; major]).
  { apply Permutation_sym. apply (Permutation_cons_app [patch; major] []). reflexivity. }
  split; [exact HP|]. split.
  - apply (proj2 (proj2 (proj2 (proj2 (proj2 (proj2 highest_required_is_the_maximum)))))).
    exact HP.
  - apply (proj1 (proj2 highest_required_is_the_maximum)). discriminate.
Defined.

End LatticeFacts.

(** ** The decision matrix *)

Module PolicyFacts.
Import SemVer Lattice Policy.

Ltac decide_case :=
  repeat split; intros;
  repeat match goal with
         | H : _ \/ _ |- _ => destruct H
         | H : ~ _ |- _ => try (exfalso; apply H; clear H; auto; fail)
         end;
  try discriminate; try reflexivity; auto.

(** C2: the verdict for every required severity and every bump.  With
    nothing required the run passes, with a warning exactly when the bump is
    neither none-or-down nor patch; a required patch passes on patch, minor
    and major, a required minor on minor and major, a required major on major
    only, and each fails otherwise with its own message; an invalid bump
    fails whatever is required, except when nothing is. *)
Theorem decision_matrix (bump : Bump) :
  (bump = none_or_down \/ bump = bump_patch ->
     Decide none bump = passes [] "no schema changes") /\
  (~ (bump = none_or_down \/ bump = bump_patch) ->
     Decide none bump = passes [warning] "no schema changes") /\
  (bump = bump_patch \/ bump = bump_minor \/ bump = bump_major ->
     Decide patch bump = passes [] "patch ok") /\
  (~ (bump = bump_patch \/ bump = bump_minor \/ bump = bump_major) ->
     Decide patch bump = fails "patch change needs version bump") /\
  (bump = bump_minor \/ bump = bump_major ->
     Decide minor bump = passes [] "minor ok") /\
  (~ (bump = bump_minor \/ bump = bump_major) ->
     Decide minor bump = fails "additive change needs minor bump") /\
  (bump = bump_major -> Decide major bump = passes [] "major ok") /\
  (bump <> bump_major ->
     Decide major bump = fails "breaking change needs MAJOR bump") /\
  (forall required, required <> none ->
     status (Decide required invalid) = 1%Z /\
     status (Decide none invalid) = 0%Z).
Proof.
  destruct bump; decide_case;
    match goal with
    | r : Severity |- _ => destruct r; try contradiction; reflexivity
    end.
Qed.

Lemma decision_matrix_witness :
  bump_minor <> bump_major /\
  Decide major bump_minor = fails "breaking change needs MAJOR bump" /\
  Decide minor bump_major = passes [] "minor ok" /\
  Decide none none_or_down = passes [] "no schema changes" /\
  Decide none bump_major = passes [warning] "no schema changes".
Proof.
  split; [discriminate|]. split; [|split; [|split]].
  - apply (decision_matrix bump_minor). discriminate.
  - apply (decision_matrix bump_major). right. reflexivity.
  - apply (decision_matrix none_or_down). left. reflexivity.
  - apply (decision_matrix bump_major). intros [H | H]; discriminate.
Defined.

End PolicyFacts.

(** ** Objects and sets *)

Module JSFacts.
Import JS.

Lemma own_of_key (o : object) k : In k (keys o) -> exists v, own o k = Some v.
Proof.
  induction o as [|[k' v'] o IH]; simpl; [intros []|].
  intros H. destruct (String.eqb k k') eqn:E; [eauto|].
  destruct H as [H | H]; [|auto].
  subst k'. rewrite String.eqb_refl in E. discriminate.
Qed.

Lemma own_is_member (o : object) k v : own o k = Some v -> In (k, v) o.
Proof.
  induction o as [|[k' v'] o IH]; simpl; [discriminate|].
  destruct (String.eqb k k') eqn:E; [|auto].
  apply String.eqb_eq in E. intros H. injection H as <-. subst k'. auto.
Qed.

Lemma has_own_property (o : object) k v : own o k = Some v -> has_property o k = true.
Proof. unfold has_property. intros ->. reflexivity. Qed.

Lemma has_property_not_inherited (o : object) k :
  inherited k = false ->
  has_property o k = match own o k with Some _ => true | None => false end.
Proof. unfold has_property. intros ->. reflexivity. Qed.

(** SameValueZero holds between equal values only, and between a literal and
    itself. *)
Lemma same_value_zero_eq a b : same_value_zero a b = true -> a = b.
Proof.
  destruct a, b; simpl; try discriminate; intros H; try reflexivity.
  - apply Bool.eqb_prop in H. congruence.
  - apply String.eqb_eq in H. congruence.
  - apply String.eqb_eq in H. congruence.
Qed.

Lemma same_value_zero_refl a : is_literal a = true -> same_value_zero a a = true.
Proof.
  destruct a; simpl; intros H; try discriminate; try reflexivity.
  - apply Bool.eqb_reflx.
  - apply String.eqb_refl.
  - apply String.eqb_refl.
Qed.

Lemma set_has_In s v : set_has s v = true -> In v s.
Proof.
  unfold set_has. rewrite existsb_exists. intros (w & Hw & E).
  apply same_value_zero_eq in E. subst w. exact Hw.
Qed.

Lemma set_has_app s1 s2 v : set_has (s1 ++ s2) v = set_has s1 v || set_has s2 v.
Proof. unfold set_has. apply existsb_app. Qed.

(** Building a set keeps membership: the set has what the items had. *)
Lemma set_has_fold items : forall acc v,
  set_has (fold_left set_add items acc) v = set_has acc v || set_has items v.
Proof.
  induction items as [|x items IH]; intros acc v; simpl.
  - rewrite orb_false_r. reflexivity.
  - rewrite IH. unfold set_add. destruct (set_has acc x) eqn:Ex.
    + destruct (same_value_zero v x) eqn:Ev; [|reflexivity].
      apply same_value_zero_eq in Ev. subst v. rewrite Ex. reflexivity.
    + rewrite set_has_app. simpl. rewrite orb_false_r, orb_assoc. reflexivity.
Qed.

Lemma set_has_new_Set items v : set_has (new_Set items) v = set_has items v.
Proof. unfold new_Set. rewrite set_has_fold. reflexivity. Qed.

Lemma In_fold_set_add items : forall acc v,
  In v (fold_left set_add items acc) -> In v acc \/ In v items.
Proof.
  induction items as [|x items IH]; intros acc v; simpl; [auto|].
  intros H. apply IH in H. destruct H as [H | H]; [|auto].
  unfold set_add in H. destruct (set_has acc x); [auto|].
  apply in_app_or in H. destruct H as [H | [<- | []]]; auto.
Qed.

Lemma In_new_Set items v : In v (new_Set items) -> In v items.
Proof.
  unfold new_Set. intros H. apply In_fold_set_add in H. destruct H as [[] | H]. exact H.
Qed.

Lemma literal_set_has s v : is_literal v = true -> In v s -> set_has s v = true.
Proof.
  intros Hl Hin. unfold set_has. apply existsb_exists.
  exists v. split; [exact Hin | apply same_value_zero_refl; exact Hl].
Qed.

(** A set of literals holds each of them once. *)
Lemma NoDup_fold_set_add items : forall acc,
  forallb is_literal items = true -> NoDup acc -> NoDup (fold_left set_add items acc).
Proof.
  induction items as [|x items IH]; intros acc Hl Hacc; simpl; [exact Hacc|].
  simpl in Hl. apply andb_prop in Hl. destruct Hl as [Hx Hitems].
  apply IH; [exact Hitems|].
  unfold set_add. destruct (set_has acc x) eqn:Ex; [exact Hacc|].
  apply NoDup_app.
  - exact Hacc.
  - constructor; [intros [] | constructor].
  - intros y Hy [<- | []]. rewrite (literal_set_has acc x Hx Hy) in Ex. discriminate.
Qed.

(** A set of literals is no larger than a set that has each of them. *)
Lemma size_subset olds news :
  forallb is_literal olds = true ->
  (forall v, In v olds -> set_has (new_Set news) v = true) ->
  size (new_Set olds) <= size (new_Set news).
Proof.
  intros Hl Hsub. unfold size. apply NoDup_incl_length.
  - apply NoDup_fold_set_add; [exact Hl | constructor].
  - intros v Hv. apply set_has_In. apply Hsub. apply In_new_Set. exact Hv.
Qed.

End JSFacts.

(** ** The classifier *)

Module ClassifierFacts.
Import JS Lattice Classifier JSFacts.

(** *** The three loops, one at a time *)

Lemma declares_own (o : object) k : declares o k = true <-> exists v, own o k = Some v.
Proof.
  unfold declares. destruct (own o k) as [v|]; split; eauto; try discriminate.
  intros (v & H). discriminate.
Qed.

Lemma declares_key (o : object) k : In k (keys o) -> declares o k = true.
Proof. intros H. apply declares_own. apply own_of_key. exact H. Qed.

Lemma declares_has_property (o : object) k : declares o k = true -> has_property o k = true.
Proof. unfold declares, has_property. destruct (own o k); [reflexivity | discriminate]. Qed.

(** The first loop finds nothing when no property was removed. *)
Lemma nothing_removed oP nP :
  removed oP nP = [] ->
  existsb (fun k => negb (has_property nP k)) (keys oP) = false.
Proof.
  unfold removed. induction (keys oP) as [|k ks IH]; simpl; [reflexivity|].
  destruct (declares nP k) eqn:E; simpl; [|discriminate].
  rewrite (declares_has_property _ _ E). simpl. exact IH.
Qed.

Lemma scan_none oP nP ks :
  (forall k, In k ks -> shape_step oP nP k = None) -> scan oP nP ks = None.
Proof.
  induction ks as [|k ks IH]; simpl; intros H; [reflexivity|].
  rewrite (H k (or_introl eq_refl)). apply IH. intros k' Hk'. apply H. right. exact Hk'.
Qed.

(** A property that both mappings write the same way is passed over. *)
Lemma step_same_shape oP nP k a b :
  own oP k = Some a -> own nP k = Some b -> stringify a = stringify b ->
  shape_step oP nP k = None.
Proof.
  intros Ha Hb E. unfold shape_step, get. rewrite Ha, Hb. simpl.
  rewrite E, String.eqb_refl. simpl. destruct (has_property oP k); reflexivity.
Qed.

Lemma step_not_in_old oP nP k : has_property oP k = false -> shape_step oP nP k = None.
Proof. unfold shape_step. intros ->. reflexivity. Qed.

(** The second loop finds nothing when every shared property kept its
    serialisation and no added name is a name of [Object.prototype]. *)
Lemma scan_shapes_kept oP nP :
  shapes_kept oP nP = true ->
  forallb (fun k => negb (inherited k)) (added oP nP) = true ->
  scan oP nP (keys nP) = None.
Proof.
  intros Hs Ha. apply scan_none. intros k Hk.
  unfold shapes_kept in Hs. rewrite forallb_forall in Hs. specialize (Hs k Hk).
  destruct (own_of_key _ _ Hk) as (b & Hb).
  unfold same_shape in Hs. rewrite Hb in Hs.
  destruct (own oP k) as [a|] eqn:Ea.
  - apply (step_same_shape _ _ _ a b Ea Hb). apply String.eqb_eq. exact Hs.
  - apply step_not_in_old. unfold has_property. rewrite Ea.
    rewrite forallb_forall in Ha. apply negb_true_iff. apply Ha.
    unfold added. apply filter_In. split; [exact Hk|].
    unfold declares. rewrite Ea. reflexivity.
Qed.

Lemma In_new_Set_iff items v : In v (new_Set items) <-> In v items.
Proof.
  split; [apply In_new_Set|]. unfold new_Set.
  assert (G : forall acc, In v acc \/ In v items -> In v (fold_left set_add items acc)).
  { induction items as [|x items IH]; intros acc [H | H]; simpl; auto.
    - contradiction.
    - apply IH. left. unfold set_add. destruct (set_has acc x); [exact H|].
      apply in_or_app. left. exact H.
    - destruct H as [<- | H]; [|apply IH; right; exact H].
      apply IH. left. unfold set_add. destruct (set_has acc x) eqn:E.
      + apply set_has_In. exact E.
      + apply in_or_app. right. left. reflexivity. }
  intros H. apply G. right. exact H.
Qed.

Lemma existsb_same_elements {A} (f : A -> bool) l1 l2 :
  (forall x, In x l1 <-> In x l2) -> existsb f l1 = existsb f l2.
Proof.
  intros H. destruct (existsb f l1) eqn:E1, (existsb f l2) eqn:E2; try reflexivity.
  - apply existsb_exists in E1. destruct E1 as (x & Hx & Hf).
    assert (E : existsb f l2 = true) by (apply existsb_exists; exists x; split; [apply H|]; assumption).
    congruence.
  - apply existsb_exists in E2. destruct E2 as (x & Hx & Hf).
    assert (E : existsb f l1 = true) by (apply existsb_exists; exists x; split; [apply H|]; assumption).
    congruence.
Qed.

Lemma existsb_pointwise {A} (f g : A -> bool) l :
  (forall x, f x = g x) -> existsb f l = existsb g l.
Proof.
  intros H. induction l as [|x l IH]; simpl; [reflexivity|]. rewrite H, IH. reflexivity.
Qed.

(** The third loop, on the sets, says what [requires_more] says on the lists. *)
Lemma required_loop old new :
  existsb (fun k => negb (set_has (new_Set (required_of old)) k)) (new_Set (required_of new))
  = requires_more old new.
Proof.
  unfold requires_more.
  rewrite (existsb_same_elements _ (new_Set (required_of new)) (required_of new))
    by (intros x; apply In_new_Set_iff).
  apply existsb_pointwise. intros r. rewrite set_has_new_Set. reflexivity.
Qed.

(** The names [classify] counts as added are the added names, when none of
    them is a name of [Object.prototype]. *)
Lemma added_filter oP nP :
  forallb (fun k => negb (inherited k)) (added oP nP) = true ->
  filter (fun k => negb (has_property oP k)) (keys nP) = added oP nP.
Proof.
  unfold added. induction (keys nP) as [|k ks IH]; simpl; [reflexivity|].
  destruct (declares oP k) eqn:Ed; simpl.
  - rewrite (declares_has_property _ _ Ed). simpl. exact IH.
  - intros H. apply andb_prop in H. destruct H as [Hk H].
    assert (Hp : has_property oP k = false).
    { unfold has_property. unfold declares in Ed.
      destruct (own oP k); [discriminate|]. apply negb_true_iff. exact Hk. }
    rewrite Hp. simpl. f_equal. apply IH. exact H.
Qed.

(** What [classify] returns once the first two loops have found nothing. *)
Lemma classify_after_the_scans old new :
  removed (properties_of old) (properties_of new) = [] ->
  shapes_kept (properties_of old) (properties_of new) = true ->
  forallb (fun k => negb (inherited k)) (added (properties_of old) (properties_of new)) = true ->
  classify (Some old) new =
  Returns (if requires_more old new then major
           else match added (properties_of old) (properties_of new) with
                | [] => patch
                | _ :: _ => if requires_added old new then major else minor
                end).
Proof.
  intros Hr Hs Ha. unfold classify.
  fold (properties_of old) (properties_of new) (required_of old) (required_of new).
  rewrite (nothing_removed _ _ Hr), (scan_shapes_kept _ _ Hs Ha), required_loop.
  destruct (requires_more old new); [reflexivity|].
  rewrite (added_filter _ _ Ha). unfold requires_added.
  destruct (added (properties_of old) (properties_of new)) as [|k ks] eqn:E; [reflexivity|].
  cbn [List.length Nat.eqb negb].
  rewrite (existsb_pointwise _ (fun k => set_has (required_of new) (JString k)))
    by (intros r; apply set_has_new_Set).
  destruct (existsb _ (k :: ks)); reflexivity.
Qed.

Import Examples.

(** *** New files *)

(** C8: a file without an old revision is classified [minor], whatever the
    new document is: [classify] returns at once, with neither [none] nor an
    error. *)
Theorem new_file_is_minor (newJs : SchemaDocument) :
  classify None newJs = Returns minor.
Proof. reflexivity. Qed.

(** *** Added properties *)

(** The additive rule does not hold as it is worded: here no property is
    removed, the shared property [a] is unchanged, [b] is added and is not
    required, and yet the result is [major] and not [minor], because [a],
    which is not an added name, became required. *)
Lemma additive_rule_overlooks_required_loop :
  removed (properties_of optional_a) (properties_of required_a_added_b) = [] /\
  shapes_kept (properties_of optional_a) (properties_of required_a_added_b) = true /\
  added (properties_of optional_a) (properties_of required_a_added_b) = ["b"] /\
  existsb (fun k => newly_required optional_a required_a_added_b (JString k)) ["b"] = false /\
  classify (Some optional_a) required_a_added_b = Returns major /\
  classify (Some optional_a) required_a_added_b <> Returns minor.
Proof. repeat split; try reflexivity. discriminate. Qed.

(** C3, amended: when no property was removed, every shared property is
    serialised as before, some property names were added and none of them is
    a name of [Object.prototype], [classify] returns [major] if an added name
    is newly required, and more generally if any entry of the new [required]
    list is missing from the old one or any added name is in the new
    [required] list; it returns [minor] otherwise. *)
Theorem additive_properties_rule (old new : SchemaDocument) :
  removed (properties_of old) (properties_of new) = [] ->
  shapes_kept (properties_of old) (properties_of new) = true ->
  added (properties_of old) (properties_of new) <> [] ->
  forallb (fun k => negb (inherited k)) (added (properties_of old) (properties_of new)) = true ->
  (existsb (fun k => newly_required old new (JString k))
     (added (properties_of old) (properties_of new)) = true ->
   classify (Some old) new = Returns major) /\
  classify (Some old) new =
  Returns (if requires_more old new || requires_added old new then major else minor).
Proof.
  intros Hr Hs Hadd Ha.
  assert (E : classify (Some old) new =
              Returns (if requires_more old new || requires_added old new
                       then major else minor)).
  { rewrite (classify_after_the_scans old new Hr Hs Ha).
    destruct (added (properties_of old) (properties_of new)); [contradiction|].
    destruct (requires_more old new), (requires_added old new); reflexivity. }
  split; [|exact E].
  intros H. rewrite E. apply existsb_exists in H. destruct H as (k & _ & Hk).
  unfold newly_required in Hk. apply andb_prop in Hk. destruct Hk as [Hn Ho].
  assert (Hm : requires_more old new = true).
  { unfold requires_more. apply existsb_exists. exists (JString k).
    split; [apply set_has_In; exact Hn | exact Ho]. }
  rewrite Hm. reflexivity.
Qed.

Lemma additive_properties_rule_witness :
  removed (properties_of optional_a) (properties_of optional_a_b) = [] /\
  shapes_kept (properties_of optional_a) (properties_of optional_a_b) = true /\
  added (properties_of optional_a) (properties_of optional_a_b) <> [] /\
  classify (Some optional_a) optional_a_b = Returns minor.
Proof.
  split; [reflexivity|]. split; [reflexivity|]. split; [discriminate|].
  apply (additive_properties_rule optional_a optional_a_b);
    [reflexivity | reflexivity | discriminate | reflexivity].
Defined.

(** *** Removed properties *)

(** A removed property is reported as [major] as long as its name is not a
    name of [Object.prototype]. *)
Lemma removal_is_major (old new : SchemaDocument) (k : string) :
  In k (removed (properties_of old) (properties_of new)) ->
  inherited k = false ->
  classify (Some old) new = Returns major.
Proof.
  intros Hk Hi. unfold classify.
  fold (properties_of old) (properties_of new).
  assert (E : existsb (fun k => negb (has_property (properties_of new) k))
                (keys (properties_of old)) = true).
  { apply existsb_exists. exists k. unfold removed in Hk. apply filter_In in Hk.
    destruct Hk as [Hin Hd]. split; [exact Hin|].
    unfold has_property. unfold declares in Hd.
    destruct (own (properties_of new) k); [discriminate|]. rewrite Hi. reflexivity. }
  rewrite E. reflexivity.
Qed.

(** C4: the old document has the property [constructor] and the new one has
    no property at all, so a property was removed; [classify] returns
    [patch], not [major].  The first loop asks [k in nP], which is also true
    of the names [nP] inherits from [Object.prototype]. *)
Theorem removal_of_an_inherited_name_is_missed :
  removed (properties_of with_constructor) (properties_of without_properties)
  = ["constructor"] /\
  has_property (properties_of without_properties) "constructor" = true /\
  classify (Some with_constructor) without_properties = Returns patch.
Proof. repeat split; reflexivity. Qed.

(** *** Equal documents *)

(** Two documents that are deep-equal and yet classified [major]: the
    schema of [f] lists the same two members in another order, and
    [JSON.stringify] writes members in their order. *)
Lemma deep_equal_documents_classified_major :
  deep_equal (document type_then_format) (document format_then_type) = true /\
  deep_equal (document format_then_type) (document type_then_format) = true /\
  classify (Some type_then_format) format_then_type = Returns major /\
  classify (Some type_then_format) format_then_type <> Returns patch.
Proof. repeat split; try reflexivity. discriminate. Qed.

Lemma forallb_not_existsb {A} (f : A -> bool) l :
  forallb f l = true -> existsb (fun x => negb (f x)) l = false.
Proof.
  induction l as [|x l IH]; simpl; [reflexivity|].
  intros H. apply andb_prop in H. destruct H as [Hx H].
  rewrite Hx, (IH H). reflexivity.
Qed.

Lemma same_shape_refl (o : object) k : same_shape o o k = true.
Proof. unfold same_shape. destruct (own o k); [apply String.eqb_refl | reflexivity]. Qed.

Lemma nothing_added_or_removed (o : object) :
  filter (fun k => negb (declares o k)) (keys o) = [].
Proof.
  assert (G : forall ks, (forall k, In k ks -> declares o k = true) ->
                         filter (fun k => negb (declares o k)) ks = []).
  { induction ks as [|k ks IH]; simpl; intros H; [reflexivity|].
    rewrite (H k (or_introl eq_refl)). simpl. apply IH. intros k' Hk'. apply H. right. exact Hk'. }
  apply G. intros k Hk. apply declares_key. exact Hk.
Qed.

(** C6, amended: two documents with the same property names, whose
    properties are each serialised to the same text in both (equal values
    with their members in the same order), and where every entry of the new
    [required] list is in the old one, are classified [patch]; so is a
    document against itself when its [required] entries are literals. *)
Theorem same_serialisation_is_patch :
  (forall X Y : SchemaDocument,
     removed (properties_of X) (properties_of Y) = [] ->
     added (properties_of X) (properties_of Y) = [] ->
     shapes_kept (properties_of X) (properties_of Y) = true ->
     forallb (set_has (required_of X)) (required_of Y) = true ->
     classify (Some X) Y = Returns patch) /\
  (forall X : SchemaDocument,
     forallb is_literal (required_of X) = true ->
     classify (Some X) X = Returns patch).
Proof.
  assert (G : forall X Y : SchemaDocument,
     removed (properties_of X) (properties_of Y) = [] ->
     added (properties_of X) (properties_of Y) = [] ->
     shapes_kept (properties_of X) (properties_of Y) = true ->
     forallb (set_has (required_of X)) (required_of Y) = true ->
     classify (Some X) Y = Returns patch).
  { intros X Y Hr Ha Hs Hq.
    rewrite (classify_after_the_scans X Y Hr Hs) by (rewrite Ha; reflexivity).
    unfold requires_more. rewrite (forallb_not_existsb _ _ Hq), Ha. reflexivity. }
  split; [exact G|].
  intros X Hl. apply G.
  - apply nothing_added_or_removed.
  - apply nothing_added_or_removed.
  - unfold shapes_kept. apply forallb_forall. intros k _. apply same_shape_refl.
  - apply forallb_forall. intros r Hr. rewrite forallb_forall in Hl.
    apply literal_set_has; [apply Hl; exact Hr | exact Hr].
Qed.

Lemma same_serialisation_is_patch_witness :
  forallb is_literal (required_of status_AB) = true /\
  classify (Some status_AB) status_AB = Returns patch.
Proof.
  split; [reflexivity|].
  apply (proj2 same_serialisation_is_patch status_AB). reflexivity.
Defined.

(** *** Enum widening *)

Lemma enum_set_of_object members items :
  own members "enum" = Some (JArray items) ->
  enum_set (Parsed (JObject members)) = Returns (Some (new_Set items)).
Proof. intros H. unfold enum_set, enum_of, get. rewrite H. reflexivity. Qed.

(** The test [sup && ne.size >= oe.size] succeeds on a list of literals and a
    list that holds each of them. *)
Lemma widening_test oe ne :
  forallb is_literal oe = true -> incl oe ne ->
  forallb (fun v => set_has (new_Set ne) v) (new_Set oe)
  && (size (new_Set oe) <=? size (new_Set ne)) = true.
Proof.
  intros Hl Hsub.
  assert (Hhas : forall v, In v oe -> set_has (new_Set ne) v = true).
  { intros v Hv. rewrite set_has_new_Set. rewrite forallb_forall in Hl.
    apply literal_set_has; [apply Hl; exact Hv | apply Hsub; exact Hv]. }
  apply andb_true_intro. split.
  - apply forallb_forall. intros v Hv. apply Hhas. apply In_new_Set. exact Hv.
  - apply Nat.leb_le. apply size_subset; assumption.
Qed.

Lemma step_widened oP nP k fo fn oe ne :
  own oP k = Some (JObject fo) -> own nP k = Some (JObject fn) ->
  own fo "enum" = Some (JArray oe) -> own fn "enum" = Some (JArray ne) ->
  forallb is_literal oe = true -> incl oe ne ->
  shape_step oP nP k = None.
Proof.
  intros Ho Hn Hoe Hne Hl Hsub. unfold shape_step.
  rewrite (has_own_property _ _ _ Ho). unfold get at 1 2 3 4. rewrite Ho, Hn.
  rewrite (enum_set_of_object _ _ Hoe), (enum_set_of_object _ _ Hne).
  cbv zeta. rewrite (widening_test oe ne Hl Hsub).
  destruct (strict_neq _ _); reflexivity.
Qed.

Lemma existsb_nowhere {A} (f : A -> bool) l :
  (forall x, In x l -> f x = false) -> existsb f l = false.
Proof.
  induction l as [|x l IH]; simpl; intros H; [reflexivity|].
  rewrite (H x (or_introl eq_refl)). apply IH. intros y Hy. apply H. right. exact Hy.
Qed.

Lemma filter_nowhere {A} (f : A -> bool) l :
  (forall x, In x l -> f x = false) -> filter f l = [].
Proof.
  induction l as [|x l IH]; simpl; intros H; [reflexivity|].
  rewrite (H x (or_introl eq_refl)). apply IH. intros y Hy. apply H. right. exact Hy.
Qed.

(** C5: a shared property whose old and new schemas both have an [enum]
    list of literals, the new list holding every value of the old one (its
    set is then at least as large), does not stop the scan: the scan goes on
    with the keys that follow as if the property were not there.  When it is
    the only change, the document is classified [patch]. *)
Theorem enum_widening_does_not_escalate
    (oP nP : object) (k : string) (fo fn : object) (oe ne : list json) :
  own oP k = Some (JObject fo) -> own nP k = Some (JObject fn) ->
  own fo "enum" = Some (JArray oe) -> own fn "enum" = Some (JArray ne) ->
  forallb is_literal oe = true -> incl oe ne ->
  shape_step oP nP k = None /\
  (forall rest, scan oP nP (k :: rest) = scan oP nP rest) /\
  (forall old new : SchemaDocument,
     properties old = Some oP -> properties new = Some nP ->
     (forall k', k' <> k -> own nP k' = own oP k') ->
     required new = required old ->
     forallb is_literal (required_of old) = true ->
     classify (Some old) new = Returns patch).
Proof.
  intros Ho Hn Hoe Hne Hl Hsub.
  pose proof (step_widened oP nP k fo fn oe ne Ho Hn Hoe Hne Hl Hsub) as Hstep.
  split; [exact Hstep|]. split; [intros rest; simpl; rewrite Hstep; reflexivity|].
  intros old new Hold Hnew Hrest Hreq Hlit.
  assert (Hboth : forall k', In k' (keys oP) \/ In k' (keys nP) ->
                  exists a b, own oP k' = Some a /\ own nP k' = Some b
                              /\ (k' <> k -> a = b)).
  { intros k' Hk'. destruct (string_dec k' k) as [-> | Hne'].
    - exists (JObject fo), (JObject fn). repeat split; try assumption. congruence.
    - destruct Hk' as [Hk' | Hk']; destruct (own_of_key _ _ Hk') as (v & Hv);
        exists v, v; rewrite ?(Hrest k' Hne'); rewrite ?Hv;
        try rewrite <- (Hrest k' Hne'); rewrite ?Hv; auto. }
  unfold classify. rewrite Hold, Hnew, Hreq. cbn [nullish].
  rewrite existsb_nowhere.
  2:{ intros k' Hk'. destruct (Hboth k' (or_introl Hk')) as (a & b & _ & Hb & _).
      rewrite (has_own_property _ _ _ Hb). reflexivity. }
  rewrite scan_none.
  2:{ intros k' Hk'. destruct (Hboth k' (or_intror Hk')) as (a & b & Ha & Hb & Hab).
      destruct (string_dec k' k) as [-> | Hne']; [exact Hstep|].
      apply (step_same_shape _ _ _ a b Ha Hb). rewrite (Hab Hne'). reflexivity. }
  rewrite existsb_nowhere.
  2:{ intros r Hr. rewrite set_has_new_Set. apply In_new_Set in Hr.
      unfold required_of in Hlit. rewrite forallb_forall in Hlit.
      rewrite (literal_set_has _ r (Hlit r Hr) Hr). reflexivity. }
  rewrite filter_nowhere; [reflexivity|].
  intros k' Hk'. destruct (Hboth k' (or_intror Hk')) as (a & b & Ha & _ & _).
  rewrite (has_own_property _ _ _ Ha). reflexivity.
Qed.

Lemma enum_widening_does_not_escalate_witness :
  incl [JString "A"; JString "B"] [JString "A"; JString "B"; JString "C"] /\
  shape_step (properties_of status_AB) (properties_of status_ABC) "status" = None /\
  classify (Some status_AB) status_ABC = Returns patch.
Proof.
  assert (Hsub : incl [JString "A"; JString "B"] [JString "A"; JString "B"; JString "C"]).
  { intros v [<- | [<- | []]]; simpl; auto. }
  split; [exact Hsub|].
  destruct (enum_widening_does_not_escalate
              (properties_of status_AB) (properties_of status_ABC) "status"
              [("type", JString "string"); ("enum", JArray [JString "A"; JString "B"])]
              [("type", JString "string");
               ("enum", JArray [JString "A"; JString "B"; JString "C"])]
              [JString "A"; JString "B"] [JString "A"; JString "B"; JString "C"]
              eq_refl eq_refl eq_refl eq_refl eq_refl Hsub) as (Hstep & _ & Hdoc).
  split; [exact Hstep|].
  apply Hdoc; try reflexivity.
  intros k' Hk'. simpl. destruct (String.eqb_spec k' "id"); [reflexivity|].
  destruct (String.eqb_spec k' "status"); [contradiction | reflexivity].
Defined.

(** *** What [classify] can return *)

Lemma enum_set_returns (v : value) :
  v <> Undefined -> v <> Parsed JNull -> exists e, enum_set v = Returns e.
Proof.
  intros Hu Hn. unfold enum_set, enum_of.
  destruct v as [|j| |]; try (eexists; reflexivity); [contradiction|].
  destruct j; try (eexists; reflexivity); [contradiction|].
  destruct (get members "enum") as [|j'| |]; try (eexists; reflexivity).
  destruct j'; eexists; reflexivity.
Qed.

Lemma get_defined (o : object) k : has_property o k = true -> get o k <> Undefined.
Proof.
  unfold has_property, get, inherited. destruct (own o k); [discriminate|].
  destruct (String.eqb k "__proto__"); [discriminate|]. simpl.
  intros ->. discriminate.
Qed.

Lemma get_not_null (o : object) k :
  forallb (fun kv => negb (is_null (snd kv))) o = true -> get o k <> Parsed JNull.
Proof.
  intros Hnn. unfold get. destruct (own o k) as [v|] eqn:E.
  - apply own_is_member in E. rewrite forallb_forall in Hnn.
    specialize (Hnn _ E). simpl in Hnn. intros H. injection H as ->. discriminate.
  - destruct (String.eqb k "__proto__"); [discriminate|].
    destruct (mem k prototype_functions); discriminate.
Qed.

(** One step of the scan goes on, or ends with [major], or throws; it does
    not throw when no schema is [null]. *)
Lemma step_range oP nP k :
  shape_step oP nP k = None \/ shape_step oP nP k = Some (Returns major)
  \/ shape_step oP nP k = Some Throws.
Proof.
  unfold shape_step. destruct (has_property oP k); [|auto].
  cbv zeta. destruct (strict_neq _ _); [|auto].
  destruct (enum_set (get oP k)) as [oe|]; [|auto].
  destruct (enum_set (get nP k)) as [ne|]; [|auto].
  destruct oe as [oe|], ne as [ne|]; auto.
  destruct (_ && _); auto.
Qed.

Lemma step_does_not_throw oP nP k :
  forallb (fun kv => negb (is_null (snd kv))) oP = true ->
  forallb (fun kv => negb (is_null (snd kv))) nP = true ->
  In k (keys nP) ->
  shape_step oP nP k <> Some Throws.
Proof.
  intros Ho Hn Hk. unfold shape_step. destruct (has_property oP k) eqn:Hp; [|discriminate].
  cbv zeta. destruct (strict_neq _ _); [|discriminate].
  destruct (enum_set_returns (get oP k) (get_defined _ _ Hp) (get_not_null _ _ Ho))
    as (oe & ->).
  assert (Hpn : has_property nP k = true)
    by (apply declares_has_property, declares_key; exact Hk).
  destruct (enum_set_returns (get nP k) (get_defined _ _ Hpn) (get_not_null _ _ Hn))
    as (ne & ->).
  destruct oe as [oe|], ne as [ne|]; try discriminate.
  destruct (_ && _); discriminate.
Qed.

Lemma scan_range oP nP ks :
  scan oP nP ks = None \/ scan oP nP ks = Some (Returns major)
  \/ scan oP nP ks = Some Throws.
Proof.
  induction ks as [|k ks IH]; simpl; [auto|].
  destruct (step_range oP nP k) as [-> | [-> | ->]]; auto.
Qed.

Lemma scan_does_not_throw oP nP ks :
  forallb (fun kv => negb (is_null (snd kv))) oP = true ->
  forallb (fun kv => negb (is_null (snd kv))) nP = true ->
  incl ks (keys nP) ->
  scan oP nP ks <> Some Throws.
Proof.
  intros Ho Hn. induction ks as [|k ks IH]; simpl; intros Hks; [discriminate|].
  pose proof (step_does_not_throw oP nP k Ho Hn (Hks k (or_introl eq_refl))) as Hk.
  destruct (step_range oP nP k) as [E | [E | E]]; rewrite E in Hk |- *.
  - apply IH. intros k' Hk'. apply Hks. right. exact Hk'.
  - discriminate.
  - contradiction.
Qed.

(** Whatever the documents, [classify] throws or returns one of [patch],
    [minor] and [major]. *)
Lemma classify_range old new :
  classify old new = Throws \/ classify old new = Returns patch
  \/ classify old new = Returns minor \/ classify old new = Returns major.
Proof.
  unfold classify. destruct old as [old|]; [|auto].
  destruct (existsb _ (keys _)); [auto|].
  destruct (scan_range (nullish (properties old) []) (nullish (properties new) [])
              (keys (nullish (properties new) []))) as [-> | [-> | ->]]; auto.
  destruct (existsb _ (new_Set _)); [auto|].
  destruct (negb _); [|auto]. destruct (existsb _ _); auto.
Qed.

Lemma classify_returns old new :
  no_null_schemas old = true -> no_null_schema new = true ->
  classify old new <> Throws.
Proof.
  intros Ho Hn. unfold classify. destruct old as [old|]; [|discriminate].
  destruct (existsb _ (keys _)); [discriminate|].
  pose proof (scan_does_not_throw (nullish (properties old) []) (nullish (properties new) [])
                (keys (nullish (properties new) [])) Ho Hn (incl_refl _)) as Hs.
  destruct (scan_range (nullish (properties old) []) (nullish (properties new) [])
              (keys (nullish (properties new) []))) as [E | [E | E]];
    rewrite E in Hs |- *; [|discriminate|contradiction].
  destruct (existsb _ (new_Set _)); [discriminate|].
  destruct (negb _); [|discriminate]. destruct (existsb _ _); discriminate.
Qed.

End ClassifierFacts.

(** ** The engine as a whole *)

Module EngineFacts.
Import JS SemVer Lattice Classifier Policy Script Examples.
Import JSFacts LatticeFacts ClassifierFacts.

(** [classify] is not total on the documents of the data model: a property
    whose schema is [null] in the old document and something else in the new
    one makes it read [null.enum], which throws. *)
Lemma classify_throws_on_a_null_schema :
  classify (Some null_schema_a) string_schema_a = Throws /\
  forall s, classify (Some null_schema_a) string_schema_a <> Returns s.
Proof. split; [reflexivity | intros s; discriminate]. Qed.

(** C9, amended: on documents none of whose properties has [null] for its
    schema, [classify] returns a severity and does not throw; and for every
    required severity and every bump the decision block ends in a verdict,
    a pass (with its warnings) or a failure, each with its message. *)
Theorem classify_and_decide_are_total :
  (forall old new,
     no_null_schemas old = true -> no_null_schema new = true ->
     exists s, classify old new = Returns s) /\
  (forall required bump,
     exists ws msg,
       Decide required bump = passes ws msg \/ Decide required bump = fails msg).
Proof.
  split.
  - intros old new Ho Hn. pose proof (classify_returns old new Ho Hn) as H.
    destruct (classify_range old new) as [E | [E | [E | E]]]; [contradiction| | |]; eauto.
  - intros required bump.
    destruct required, bump;
      first [ exists [], "no schema changes"; left; reflexivity
            | exists [warning], "no schema changes"; left; reflexivity
            | exists [], "patch ok"; left; reflexivity
            | exists [], "minor ok"; left; reflexivity
            | exists [], "major ok"; left; reflexivity
            | exists [], "patch change needs version bump"; right; reflexivity
            | exists [], "additive change needs minor bump"; right; reflexivity
            | exists [], "breaking change needs MAJOR bump"; right; reflexivity ].
Qed.

Lemma classify_and_decide_are_total_witness :
  no_null_schemas (Some status_AB) = true /\
  no_null_schema status_ABC = true /\
  exists s, classify (Some status_AB) status_ABC = Returns s.
Proof.
  split; [reflexivity|]. split; [reflexivity|].
  apply (proj1 classify_and_decide_are_total (Some status_AB) status_ABC); reflexivity.
Defined.

(** The loop gives each file the severity [classify] returns for it and
    folds them with [bumpFrom]. *)
Lemma schema_loop_fold files : forall required r,
  schema_loop files required = Returns r ->
  exists cs,
    Forall2 (fun f c => classify (fst f) (snd f) = Returns c) files cs /\
    r = fold_left bumpFrom cs required.
Proof.
  induction files as [|[oldJ newJ] files IH]; simpl; intros required r H.
  - injection H as <-. exists []. split; [constructor | reflexivity].
  - destruct (classify oldJ newJ) as [c|] eqn:Ec; [|discriminate].
    destruct (IH _ _ H) as (cs & HF & ->).
    exists (c :: cs). split; [constructor; assumption | reflexivity].
Qed.

Lemma schema_loop_returns files : forall required,
  forallb (fun f => no_null_schemas (fst f) && no_null_schema (snd f)) files = true ->
  exists r, schema_loop files required = Returns r.
Proof.
  induction files as [|[oldJ newJ] files IH]; simpl; intros required H; [eauto|].
  apply andb_prop in H. destruct H as [Hf H]. apply andb_prop in Hf. destruct Hf as [Ho Hn].
  pose proof (classify_returns oldJ newJ Ho Hn) as Hc.
  destruct (classify oldJ newJ) as [c|]; [apply IH; exact H | contradiction].
Qed.

(** C10: [classify] never returns [none]: what it returns is [patch],
    [minor] or [major], and it does return when no schema is [null].  So the
    level the loop over the changed files ends with is at least [patch] when
    there is a file, and is [none] only when there is no file. *)
Theorem classify_never_returns_none :
  (forall old new, classify old new <> Returns none) /\
  (forall old new s, classify old new = Returns s -> s = patch \/ s = minor \/ s = major) /\
  (forall old new,
     no_null_schemas old = true -> no_null_schema new = true ->
     classify old new = Returns patch \/ classify old new = Returns minor
     \/ classify old new = Returns major) /\
  (forall files r,
     schema_loop files none = Returns r ->
     (files <> [] -> rank patch <= rank r) /\ (r = none -> files = [])) /\
  (forall files,
     forallb (fun f => no_null_schemas (fst f) && no_null_schema (snd f)) files = true ->
     exists r, schema_loop files none = Returns r).
Proof.
  assert (R : forall old new s,
             classify old new = Returns s -> s = patch \/ s = minor \/ s = major).
  { intros old new s H.
    destruct (classify_range old new) as [E | [E | [E | E]]];
      rewrite E in H; try discriminate; injection H as <-; auto. }
  assert (N : forall files cs,
             Forall2 (fun f c => classify (fst f) (snd f) = Returns c) files cs ->
             forall c, In c cs -> c <> none).
  { induction 1 as [|f c files cs Hf _ IH]; intros c' Hc'; [destruct Hc'|].
    destruct Hc' as [<- | Hc']; [|apply IH; exact Hc'].
    destruct (R _ _ _ Hf) as [-> | [-> | ->]]; discriminate. }
  split; [|split; [exact R|split; [|split]]].
  - intros old new H. destruct (R _ _ _ H) as [E | [E | E]]; discriminate.
  - intros old new Ho Hn. pose proof (classify_returns old new Ho Hn) as H.
    destruct (classify_range old new) as [E | [E | [E | E]]]; [contradiction| | |]; auto.
  - intros files r Hloop. destruct (schema_loop_fold _ _ _ Hloop) as (cs & HF & ->).
    fold (highest_required cs).
    assert (Hnone : highest_required cs = none -> files = []).
    { intros H. apply (highest_required_none cs (N files cs HF)) in H. subst cs.
      inversion HF. reflexivity. }
    split; [|exact Hnone].
    intros Hfiles. destruct (highest_required cs) eqn:E; simpl; try lia.
    exfalso. apply Hfiles. apply Hnone. reflexivity.
  - intros files H. apply schema_loop_returns. exact H.
Qed.

Lemma classify_never_returns_none_witness :
  schema_loop [(Some status_AB, status_ABC); (None, optional_a)] none = Returns minor /\
  rank patch <= rank minor.
Proof.
  split; [reflexivity|].
  apply (proj1 (proj2 (proj2 (proj2 classify_never_returns_none)))
           [(Some status_AB, status_ABC); (None, optional_a)] minor eq_refl).
  discriminate.
Defined.

End EngineFacts.

(** ** Further properties of [parse] and [cmp] *)

Module SemVerMore.
Import JS SemVer Vocabulary SemVerFacts.

Lemma repeat_char_shape {R} (c : ascii) (s : string) (k : string -> option R) (r : R) :
  repeat_char c s k = Some r ->
  exists n t, s = (copies c n ++ t)%string /\ k t = Some r.
Proof.
  induction s as [|a s' IH]; simpl; intros H.
  - exists 0, EmptyString. split; [reflexivity | exact H].
  - destruct (Ascii.eqb a c) eqn:Ea.
    + apply Ascii.eqb_eq in Ea. subst a.
      destruct (repeat_char c s' k) as [r'|] eqn:E.
      * injection H as <-. destruct (IH eq_refl) as (n & t & -> & Ht).
        exists (S n), t. split; [reflexivity | exact Ht].
      * exists 0, (String c s'). split; [reflexivity | exact H].
    + exists 0, (String a s'). split; [reflexivity | exact H].
Qed.

Lemma repeat_char_succeeds {R} (c : ascii) (n : nat) (t : string) (k : string -> option R) :
  k t <> None -> repeat_char c (copies c n ++ t)%string k <> None.
Proof.
  intros Hk.
  assert (Hzero : forall s, k s <> None -> repeat_char c s k <> None).
  { intros s Hs. destruct s as [|a s']; simpl; [exact Hs|].
    destruct (Ascii.eqb a c); [|exact Hs].
    destruct (repeat_char c s' k); [discriminate | exact Hs]. }
  induction n as [|n IH]; simpl; [apply Hzero; exact Hk|].
  rewrite Ascii.eqb_refl.
  destruct (repeat_char c (copies c n ++ t)%string k); [discriminate | contradiction].
Qed.

Lemma component_shape s caps k r :
  run component s caps k = Some r ->
  exists n t cap, s = (escaped_ds n ++ t)%string /\ k t (caps ++ [cap]) = Some r.
Proof.
  unfold component. simpl.
  destruct s as [|a s']; [discriminate|].
  destruct (Ascii.eqb a backslash) eqn:Ea; [|discriminate].
  apply Ascii.eqb_eq in Ea. subst a.
  destruct s' as [|b s'']; [discriminate|].
  destruct (Ascii.eqb b d) eqn:Eb; [|discriminate].
  apply Ascii.eqb_eq in Eb. subst b.
  intros H. apply repeat_char_shape in H. destruct H as (n & t & -> & Ht).
  exists n, t. eexists. split; [reflexivity | exact Ht].
Qed.

Lemma separator_shape s caps k r :
  run separator s caps k = Some r ->
  exists c t, s = (escaped c ++ t)%string /\ is_line_terminator c = false
              /\ k t caps = Some r.
Proof.
  unfold separator. simpl.
  destruct s as [|a s']; [discriminate|].
  destruct (Ascii.eqb a backslash) eqn:Ea; [|discriminate].
  apply Ascii.eqb_eq in Ea. subst a.
  destruct s' as [|b s'']; [discriminate|].
  destruct (is_line_terminator b) eqn:Eb; [discriminate|].
  intros H. exists b, s''. repeat split; assumption.
Qed.

Lemma component_succeeds n t caps k :
  (forall cap, k t (caps ++ [cap]) <> None) ->
  run component (escaped_ds n ++ t)%string caps k <> None.
Proof.
  intros Hk. unfold component, escaped_ds. simpl.
  apply (repeat_char_succeeds d n t). apply Hk.
Qed.

Lemma separator_succeeds c t caps k :
  is_line_terminator c = false -> k t caps <> None ->
  run separator (escaped c ++ t)%string caps k <> None.
Proof.
  intros Hc Hk. unfold separator, escaped. simpl.
  rewrite Hc. exact Hk.
Qed.

Lemma version_pattern_steps v k :
  run version_pattern v [] k
  = run component v []
      (fun t1 c1 => run separator t1 c1
         (fun t2 c2 => run component t2 c2
            (fun t3 c3 => run separator t3 c3
               (fun t4 c4 => run component t4 c4 k)))).
Proof. reflexivity. Qed.

(** X1: [parse] returns a triple exactly on the strings that start with a
    backslash and one or more letters [d], a backslash and any character but
    a line terminator, the same two again, and a backslash and one or more
    letters [d]; the three numbers of the triple are then [NaN]. *)
Theorem parse_accepts_exactly (v : string) :
  (forall t, parse v = Some t -> t = {| M := NaN; m := NaN; p := NaN |}) /\
  (parse v <> None <->
   exists n1 c1 n2 c2 n3 rest,
     is_line_terminator c1 = false /\ is_line_terminator c2 = false /\
     v = (escaped_ds n1 ++ escaped c1 ++ escaped_ds n2 ++ escaped c2
          ++ escaped_ds n3 ++ rest)%string).
Proof.
  split; [intros t; apply parse_gives_NaN|].
  unfold parse, match_anchored. rewrite version_pattern_steps. split.
  - intros H. destruct (run component v [] _) as [caps|] eqn:E; [|contradiction].
    apply component_shape in E. destruct E as (n1 & t1 & cap1 & -> & E).
    apply separator_shape in E. destruct E as (c1 & t2 & -> & Hc1 & E).
    apply component_shape in E. destruct E as (n2 & t3 & cap2 & -> & E).
    apply separator_shape in E. destruct E as (c2 & t4 & -> & Hc2 & E).
    apply component_shape in E. destruct E as (n3 & t5 & cap3 & -> & E).
    exists n1, c1, n2, c2, n3, t5. repeat split; assumption.
  - intros (n1 & c1 & n2 & c2 & n3 & rest & Hc1 & Hc2 & ->).
    destruct (run component _ [] _) as [caps|] eqn:E.
    + apply component_inv in E. destruct E as (t1 & r1 & E).
      apply separator_inv in E. destruct E as (t2 & E).
      apply component_inv in E. destruct E as (t3 & r2 & E).
      apply separator_inv in E. destruct E as (t4 & E).
      apply component_inv in E. destruct E as (t5 & r3 & E).
      injection E as <-. discriminate.
    + exfalso. revert E. apply component_succeeds. intros cap1.
      apply separator_succeeds; [exact Hc1|].
      apply component_succeeds. intros cap2.
      apply separator_succeeds; [exact Hc2|].
      apply component_succeeds. intros cap3. discriminate.
Qed.

Lemma parse_accepts_exactly_witness :
  parse (escaped_ds 0 ++ escaped "." ++ escaped_ds 1 ++ escaped "." ++ escaped_ds 2 ++ "-beta")
  = Some {| M := NaN; m := NaN; p := NaN |}.
Proof.
  destruct (parse (escaped_ds 0 ++ escaped "." ++ escaped_ds 1 ++ escaped "."
                   ++ escaped_ds 2 ++ "-beta")) as [t|] eqn:E.
  - f_equal. apply (proj1 (parse_accepts_exactly _) t E).
  - exfalso. revert E. apply (proj2 (proj2 (parse_accepts_exactly _))).
    exists 0, "."%char, 1, "."%char, 2, "-beta". repeat split; reflexivity.
Defined.

(** X2: [cmp] never answers [patch], [minor] or [major]: it answers
    [invalid] when [parse] rejects one of the two strings, and [none-or-down]
    when it accepts both, whatever they are. *)
Theorem cmp_answers (oldV newV : string) :
  cmp oldV newV =
    match parse oldV, parse newV with
    | Some _, Some _ => none_or_down
    | _, _ => invalid
    end /\
  cmp oldV newV <> bump_patch /\ cmp oldV newV <> bump_minor /\ cmp oldV newV <> bump_major.
Proof.
  assert (E : cmp oldV newV =
              match parse oldV, parse newV with
              | Some _, Some _ => none_or_down
              | _, _ => invalid
              end).
  { unfold cmp. destruct (parse oldV) as [o|] eqn:Eo; [|reflexivity].
    destruct (parse newV) as [n|] eqn:En; [|reflexivity].
    apply parse_gives_NaN in Eo, En. subst o n. reflexivity. }
  split; [exact E|]. rewrite E.
  destruct (parse oldV), (parse newV); repeat split; discriminate.
Qed.

End SemVerMore.

(** ** Further properties of the aggregation and of the decision *)

Module LatticeMore.
Import Lattice LatticeFacts.

Lemma loop_from cs : forall acc,
  fold_left bumpFrom cs acc = bumpFrom acc (fold_left bumpFrom cs none).
Proof.
  induction cs as [|x cs IH]; intros acc; simpl.
  - destruct acc; reflexivity.
  - rewrite (IH (bumpFrom acc x)), (IH (bumpFrom none x)).
    rewrite bumpFrom_assoc. f_equal. f_equal. destruct x; reflexivity.
Qed.

(** X3: the level of a batch of files is [bumpFrom] of the levels of its
    two parts, so a batch can be split, classified apart and merged; and the
    level is [major] exactly when some file of the batch is [major]. *)
Theorem highest_required_of_a_batch :
  (forall cs1 cs2,
     highest_required (cs1 ++ cs2)
     = bumpFrom (highest_required cs1) (highest_required cs2)) /\
  (forall cs, highest_required cs = major <-> In major cs).
Proof.
  split.
  - intros cs1 cs2. unfold highest_required. rewrite fold_left_app. apply loop_from.
  - intros cs. unfold highest_required. split.
    + intros H. destruct (loop_attained cs none) as [E | E].
      * rewrite H in E. discriminate.
      * rewrite H in E. exact E.
    + intros H. destruct (loop_upper_bound cs none) as [_ Hin].
      specialize (Hin major H). apply rank_inj.
      destruct (fold_left bumpFrom cs none); simpl in *; lia.
Qed.

Lemma highest_required_of_a_batch_witness :
  In major [patch; major; minor] /\ highest_required [patch; major; minor] = major.
Proof.
  assert (H : In major [patch; major; minor]) by (right; left; reflexivity).
  split; [exact H|]. apply (proj2 highest_required_of_a_batch). exact H.
Defined.

End LatticeMore.

Module PolicyMore.
Import SemVer Lattice Policy Vocabulary.

(** X4: the run passes (exit status 0) exactly when the bump reaches the
    required level, [invalid] and [none-or-down] reaching none; it fails with
    exit status 1 otherwise.  So a run that passes still passes when less is
    required or when the bump is larger. *)
Theorem decision_passes_exactly (required : Severity) (bump : Bump) :
  (status (Decide required bump) = 0%Z <-> rank required <= bump_level bump) /\
  (status (Decide required bump) = 1%Z <-> bump_level bump < rank required) /\
  (forall required' bump',
     rank required' <= rank required -> bump_level bump <= bump_level bump' ->
     status (Decide required bump) = 0%Z ->
     status (Decide required' bump') = 0%Z).
Proof.
  assert (P : forall r b, status (Decide r b) = 0%Z <-> rank r <= bump_level b).
  { intros r b. destruct r, b; cbn; split; intros H; try reflexivity; try lia;
      discriminate. }
  split; [apply P|]. split.
  - destruct required, bump; cbn; split; intros H; try reflexivity; try lia;
      discriminate.
  - intros required' bump' Hr Hb H. apply P. apply P in H. lia.
Qed.

Lemma decision_passes_exactly_witness :
  rank minor <= bump_level bump_major /\ status (Decide minor bump_major) = 0%Z.
Proof.
  assert (H : rank minor <= bump_level bump_major) by (cbn; lia).
  split; [exact H|]. apply (proj1 (decision_passes_exactly minor bump_major)). exact H.
Defined.

End PolicyMore.

(** ** The list of changed files *)

Module FilesFacts.
Import JS Files.

Lemma split_not_empty sep s : split sep s <> [].
Proof.
  destruct s as [|c s']; simpl; [discriminate|].
  destruct (Ascii.eqb c sep); [discriminate|].
  destruct (split sep s'); discriminate.
Qed.

Lemma split_pieces s : forall f, In f (split newline s) -> has_newline f = false.
Proof.
  induction s as [|c s' IH]; simpl; intros f Hf.
  - destruct Hf as [<- | []]. reflexivity.
  - destruct (Ascii.eqb c newline) eqn:Ec.
    + destruct Hf as [<- | Hf]; [reflexivity | apply IH; exact Hf].
    + destruct (split newline s') as [|piece pieces] eqn:E.
      * destruct Hf as [<- | []]. simpl. rewrite Ec. reflexivity.
      * destruct Hf as [<- | Hf].
        -- simpl. rewrite Ec. apply IH. left. reflexivity.
        -- apply IH. right. exact Hf.
Qed.

Lemma split_one_line f : has_newline f = false -> split newline f = [f].
Proof.
  induction f as [|c f' IH]; simpl; intros H; [reflexivity|].
  apply orb_false_iff in H. destruct H as [Hc Hf]. rewrite Hc, (IH Hf). reflexivity.
Qed.

Lemma split_first_line f t :
  has_newline f = false ->
  split newline (f ++ String newline t) = f :: split newline t.
Proof.
  induction f as [|c f' IH]; simpl; intros H; [reflexivity|].
  apply orb_false_iff in H. destruct H as [Hc Hf]. rewrite Hc, (IH Hf). reflexivity.
Qed.

Lemma trim_start_of_blank s : blank s = true -> trim_start s = EmptyString.
Proof.
  induction s as [|c s' IH]; simpl; intros H; [reflexivity|].
  apply andb_prop in H. destruct H as [Hc Hs]. rewrite Hc. apply IH. exact Hs.
Qed.

Lemma trim_start_kept s : starts_with_white_space s = false -> trim_start s = s.
Proof. destruct s as [|c s']; simpl; [reflexivity | intros ->; reflexivity]. Qed.

(** What [trim_end] empties was blank. *)
Lemma trim_end_empty s : trim_end s = EmptyString -> blank s = true.
Proof.
  induction s as [|c s' IH]; simpl; intros H; [reflexivity|].
  destruct (trim_end s') as [|c' t] eqn:E; [|discriminate].
  destruct (is_white_space c); [|discriminate]. simpl. apply IH. reflexivity.
Qed.

Lemma trim_end_kept s :
  s <> EmptyString -> ends_with_white_space s = false -> trim_end s = s.
Proof.
  induction s as [|c s' IH]; intros Hne He; [contradiction|].
  simpl. destruct s' as [|c' s''].
  - simpl in *. rewrite He. reflexivity.
  - rewrite IH; [reflexivity | discriminate | exact He].
Qed.

Lemma trim_end_newline s : trim_end (s ++ String newline EmptyString) = trim_end s.
Proof.
  induction s as [|c s' IH]; simpl; [reflexivity|]. rewrite IH. reflexivity.
Qed.

Lemma trim_end_after a u :
  trim_end u <> EmptyString -> trim_end (a ++ u) = (a ++ trim_end u)%string.
Proof.
  intros Hu. induction a as [|c a' IH]; simpl; [reflexivity|].
  rewrite IH. destruct (a' ++ trim_end u)%string eqn:E; [|reflexivity].
  destruct a'; simpl in E; [contradiction | discriminate].
Qed.

Lemma plain_name_parts f :
  plain_name f = true ->
  f <> EmptyString /\ has_newline f = false
  /\ starts_with_white_space f = false /\ ends_with_white_space f = false.
Proof.
  unfold plain_name, Boolean. intros H.
  apply andb_prop in H. destruct H as [H He].
  apply andb_prop in H. destruct H as [H Hs].
  apply andb_prop in H. destruct H as [Hb Hn].
  apply negb_true_iff in He, Hs, Hn, Hb.
  repeat split; try assumption.
  intros ->. discriminate.
Qed.

Lemma unlines_not_blank f names : plain_name f = true -> blank (unlines (f :: names)) = false.
Proof.
  intros H. destruct (plain_name_parts f H) as (Hne & _ & Hs & _).
  destruct f as [|c f']; [contradiction|]. simpl in *. rewrite Hs. reflexivity.
Qed.

(** The names [git diff] printed come back: the trailing line feed is
    trimmed, the text is cut at the other ones, and no piece is empty. *)
Lemma lines_of_unlines names :
  forallb plain_name names = true ->
  filter Boolean (split newline (trim_end (unlines names))) = names.
Proof.
  induction names as [|f names IH]; simpl; intros H; [reflexivity|].
  apply andb_prop in H. destruct H as [Hf Hnames].
  destruct (plain_name_parts f Hf) as (Hne & Hnl & Hs & He).
  assert (Hb : Boolean f = true).
  { unfold Boolean. apply negb_true_iff. apply String.eqb_neq. exact Hne. }
  destruct names as [|g names'].
  - simpl. rewrite trim_end_newline, (trim_end_kept f Hne He), (split_one_line f Hnl).
    simpl. rewrite Hb. reflexivity.
  - assert (Hu : trim_end (unlines (g :: names')) <> EmptyString).
    { intros E. apply trim_end_empty in E.
      simpl in Hnames. apply andb_prop in Hnames. destruct Hnames as [Hg _].
      rewrite (unlines_not_blank g names' Hg) in E. discriminate. }
    change (f ++ String newline (unlines (g :: names')))%string
      with (f ++ (String newline EmptyString ++ unlines (g :: names')))%string.
    rewrite (trim_end_after f), (trim_end_after (String newline EmptyString)) by
      (try rewrite (trim_end_after (String newline EmptyString)) by exact Hu;
       try exact Hu; simpl; discriminate).
    simpl. rewrite (split_first_line f _ Hnl). simpl. rewrite Hb. f_equal.
    apply IH. exact Hnames.
Qed.

(** X5: every name [changed] gives is non-empty and on one line; an output
    that is blank gives no name; and when [git diff] prints names that are
    non-empty, on one line and without white space at either end, each
    followed by a line feed, [changed] gives these names back in order. *)
Theorem changed_gives_the_names :
  (forall stdout f, In f (changed stdout) -> f <> EmptyString /\ has_newline f = false) /\
  (forall stdout, blank stdout = true -> changed stdout = []) /\
  (forall names, forallb plain_name names = true -> changed (unlines names) = names).
Proof.
  split; [|split].
  - intros stdout f H. unfold changed in H. apply filter_In in H. destruct H as [Hin Hb].
    split.
    + intros ->. discriminate.
    + apply (split_pieces _ _ Hin).
  - intros stdout H. unfold changed, trim. rewrite (trim_start_of_blank _ H). reflexivity.
  - intros names H. unfold changed, trim.
    rewrite trim_start_kept; [apply lines_of_unlines; exact H|].
    destruct names as [|f names]; [reflexivity|].
    simpl in H. apply andb_prop in H. destruct H as [Hf _].
    destruct (plain_name_parts f Hf) as (Hne & _ & Hs & _).
    destruct f as [|c f']; [contradiction | exact Hs].
Qed.

Lemma changed_gives_the_names_witness :
  forallb plain_name ["contracts/schema/offer.json"; "README.md"] = true /\
  changed (unlines ["contracts/schema/offer.json"; "README.md"])
  = ["contracts/schema/offer.json"; "README.md"].
Proof.
  split; [reflexivity|].
  apply (proj2 (proj2 changed_gives_the_names)). reflexivity.
Defined.

End FilesFacts.

(** ** Further properties of [classify] *)

Module ClassifierMore.
Import JS Lattice Classifier Vocabulary JSFacts ClassifierFacts.

Lemma key_of_own (o : object) k v : own o k = Some v -> In k (keys o).
Proof.
  intros H. apply own_is_member in H. unfold keys.
  apply (in_map fst) in H. exact H.
Qed.

Lemma scan_none_everywhere oP nP ks :
  scan oP nP ks = None -> forall k, In k ks -> shape_step oP nP k = None.
Proof.
  induction ks as [|k ks IH]; simpl; intros H k' Hk'; [destruct Hk'|].
  destruct (shape_step oP nP k) as [r|] eqn:E; [discriminate|].
  destruct Hk' as [<- | Hk']; [exact E | apply IH; assumption].
Qed.

Lemma scan_throws_somewhere oP nP ks :
  scan oP nP ks = Some Throws -> exists k, In k ks /\ shape_step oP nP k = Some Throws.
Proof.
  induction ks as [|k ks IH]; simpl; intros H; [discriminate|].
  destruct (shape_step oP nP k) as [r|] eqn:E.
  - injection H as ->. exists k. split; [left; reflexivity | exact E].
  - destruct (IH H) as (k' & Hk' & Hs). exists k'. split; [right; exact Hk' | exact Hs].
Qed.

Lemma enum_set_parsed (a : json) :
  enum_set (Parsed a) =
  match a with
  | JNull => Throws
  | _ => Returns (option_map new_Set (enum_values a))
  end.
Proof.
  destruct a; try reflexivity.
  unfold enum_set, enum_of, get, enum_values.
  destruct (own members "enum") as [v|]; [destruct v|]; reflexivity.
Qed.

Lemma forallb_same_elements {A} (f : A -> bool) l1 l2 :
  (forall x, In x l1 <-> In x l2) -> forallb f l1 = forallb f l2.
Proof.
  intros H. destruct (forallb f l1) eqn:E1, (forallb f l2) eqn:E2; try reflexivity.
  - rewrite forallb_forall in E1.
    assert (E : forallb f l2 = true)
      by (apply forallb_forall; intros x Hx; apply E1, H; exact Hx).
    congruence.
  - rewrite forallb_forall in E2.
    assert (E : forallb f l1 = true)
      by (apply forallb_forall; intros x Hx; apply E2, H; exact Hx).
    congruence.
Qed.

Lemma same_value_zero_literal a b : same_value_zero a b = true -> is_literal a = true.
Proof. destruct a, b; simpl; intros H; try discriminate; reflexivity. Qed.

Lemma set_has_literal s v : set_has s v = true -> is_literal v = true.
Proof.
  unfold set_has. rewrite existsb_exists. intros (w & _ & E).
  apply (same_value_zero_literal _ _ E).
Qed.

Lemma superset_test_subsumes (oe ne : list json) :
  forallb (fun v => set_has (new_Set ne) v) (new_Set oe) = true ->
  (size (new_Set oe) <=? size (new_Set ne)) = true.
Proof.
  intros H. rewrite forallb_forall in H.
  assert (Hin : forall v, In v oe -> set_has (new_Set ne) v = true).
  { intros v Hv. apply H. apply In_new_Set_iff. exact Hv. }
  apply Nat.leb_le. apply size_subset; [|exact Hin].
  apply forallb_forall. intros v Hv. apply (set_has_literal _ _ (Hin v Hv)).
Qed.

Lemma widening_test_is_widens oe ne :
  forallb (fun v => set_has (new_Set ne) v) (new_Set oe)
  && (size (new_Set oe) <=? size (new_Set ne))
  = forallb (fun v => set_has ne v) oe.
Proof.
  assert (E : forallb (fun v => set_has (new_Set ne) v) (new_Set oe)
              = forallb (fun v => set_has ne v) oe).
  { rewrite (forallb_same_elements _ (new_Set oe) oe) by (intros x; apply In_new_Set_iff).
    induction oe as [|x oe IH]; simpl; [reflexivity|].
    rewrite set_has_new_Set, IH. reflexivity. }
  destruct (forallb (fun v => set_has (new_Set ne) v) (new_Set oe)) eqn:Hs.
  - rewrite (superset_test_subsumes oe ne Hs). simpl. exact E.
  - simpl. exact E.
Qed.

(** X6: the second half of the test [sup && ne.size>=oe.size] never
    decides: when every value of the old set is in the new set, the new set
    is at least as large; the whole test says that every value of the old
    [enum] array is a value of the new one. *)
Theorem superset_test_implies_size_test (oe ne : list json) :
  (forallb (fun v => set_has (new_Set ne) v) (new_Set oe) = true ->
   (size (new_Set oe) <=? size (new_Set ne)) = true) /\
  forallb (fun v => set_has (new_Set ne) v) (new_Set oe)
  && (size (new_Set oe) <=? size (new_Set ne))
  = forallb (fun v => set_has ne v) oe.
Proof. split; [apply superset_test_subsumes | apply widening_test_is_widens]. Qed.

Lemma superset_test_implies_size_test_witness :
  forallb (fun v => set_has (new_Set [JString "A"; JString "B"; JString "A"]) v)
    (new_Set [JString "B"; JString "B"]) = true /\
  (size (new_Set [JString "B"; JString "B"])
   <=? size (new_Set [JString "A"; JString "B"; JString "A"])) = true.
Proof.
  split; [reflexivity|].
  apply (proj1 (superset_test_implies_size_test [JString "B"; JString "B"]
                  [JString "A"; JString "B"; JString "A"])).
  reflexivity.
Defined.

(** The step of the scan at a property that both documents have. *)
Lemma step_of_shared oP nP k a b :
  own oP k = Some a -> own nP k = Some b ->
  shape_step oP nP k =
  if String.eqb (stringify a) (stringify b) then None
  else match a, b with
       | JNull, _ | _, JNull => Some Throws
       | _, _ => if widens a b then None else Some (Returns major)
       end.
Proof.
  intros Ha Hb. unfold shape_step, get. rewrite (has_own_property _ _ _ Ha), Ha, Hb.
  cbv zeta. unfold JSON_stringify, strict_neq.
  destruct (String.eqb (stringify a) (stringify b)); [reflexivity|]. cbn [negb].
  rewrite !enum_set_parsed. unfold widens.
  destruct a; try reflexivity; destruct b; try reflexivity;
    destruct (enum_values _) as [oe|]; try reflexivity;
    destruct (enum_values _) as [ne|]; try reflexivity;
    cbn [option_map]; rewrite widening_test_is_widens; reflexivity.
Qed.

Lemma not_null_of_member (o : object) k v :
  forallb (fun kv => negb (is_null (snd kv))) o = true -> own o k = Some v -> v <> JNull.
Proof.
  intros Hn Hv. apply own_is_member in Hv. rewrite forallb_forall in Hn.
  specialize (Hn _ Hv). simpl in Hn. intros ->. discriminate.
Qed.

(** X7: when no schema is [null], a property that both documents have,
    that is not serialised as before, and whose change is not a widening of
    its [enum] (both schemas with an [enum] array, every old value among the
    new ones) makes [classify] return [major]. *)
Theorem shape_change_is_major (old new : SchemaDocument) (k : string) (a b : json) :
  no_null_schema old = true -> no_null_schema new = true ->
  own (properties_of old) k = Some a -> own (properties_of new) k = Some b ->
  stringify a <> stringify b -> widens a b = false ->
  classify (Some old) new = Returns major.
Proof.
  intros Ho Hn Ha Hb Hne Hw.
  assert (Hstep : shape_step (properties_of old) (properties_of new) k
                  = Some (Returns major)).
  { rewrite (step_of_shared _ _ _ a b Ha Hb).
    apply String.eqb_neq in Hne. rewrite Hne, Hw.
    pose proof (not_null_of_member _ _ _ Ho Ha) as Hna.
    pose proof (not_null_of_member _ _ _ Hn Hb) as Hnb.
    destruct a; try contradiction; destruct b; try contradiction; reflexivity. }
  unfold classify. fold (properties_of old) (properties_of new).
  destruct (existsb _ (keys (properties_of old))); [reflexivity|].
  pose proof (scan_does_not_throw (properties_of old) (properties_of new)
                (keys (properties_of new)) Ho Hn (incl_refl _)) as Hs.
  destruct (scan_range (properties_of old) (properties_of new)
              (keys (properties_of new))) as [E | [E | E]].
  - pose proof (scan_none_everywhere _ _ _ E k (key_of_own _ _ _ Hb)) as E'.
    rewrite Hstep in E'. discriminate.
  - rewrite E. reflexivity.
  - contradiction.
Qed.

Lemma shape_change_is_major_witness :
  stringify (JObject [("type", JString "string")])
  <> stringify (JObject [("type", JString "number")]) /\
  classify (Some Examples.string_schema_a)
    {| properties := Some [("a", JObject [("type", JString "number")])];
       required := None |}
  = Returns major.
Proof.
  assert (H : stringify (JObject [("type", JString "string")])
              <> stringify (JObject [("type", JString "number")]))
    by (vm_compute; discriminate).
  split; [exact H|].
  apply (shape_change_is_major Examples.string_schema_a
           {| properties := Some [("a", JObject [("type", JString "number")])];
              required := None |}
           "a" (JObject [("type", JString "string")]) (JObject [("type", JString "number")]));
    try reflexivity.
  exact H.
Defined.

(** X8: when no schema is [null], an entry of the new [required] list that
    is not in the old one makes [classify] return [major], whatever else
    changed, whether the name it requires is a new property, an old one or
    none at all. *)
Theorem newly_required_is_major (old new : SchemaDocument) :
  no_null_schema old = true -> no_null_schema new = true ->
  requires_more old new = true ->
  classify (Some old) new = Returns major.
Proof.
  intros Ho Hn Hr. unfold classify.
  fold (properties_of old) (properties_of new) (required_of old) (required_of new).
  destruct (existsb _ (keys (properties_of old))); [reflexivity|].
  pose proof (scan_does_not_throw (properties_of old) (properties_of new)
                (keys (properties_of new)) Ho Hn (incl_refl _)) as Hs.
  destruct (scan_range (properties_of old) (properties_of new)
              (keys (properties_of new))) as [E | [E | E]];
    rewrite E in Hs |- *; [|reflexivity|contradiction].
  rewrite required_loop, Hr. reflexivity.
Qed.

Lemma newly_required_is_major_witness :
  requires_more Examples.optional_a Examples.required_a_added_b = true /\
  classify (Some Examples.optional_a) Examples.required_a_added_b = Returns major.
Proof.
  split; [reflexivity|].
  apply (newly_required_is_major Examples.optional_a Examples.required_a_added_b);
    reflexivity.
Defined.

(** X9: undoing an additive change is breaking: when [classify] returns
    [minor] from one document to another, it returns [major] from the second
    back to the first. *)
Theorem undoing_a_minor_change_is_major (a b : SchemaDocument) :
  classify (Some a) b = Returns minor -> classify (Some b) a = Returns major.
Proof.
  intros H.
  assert (Hadded : existsb (fun k => negb (has_property (properties_of a) k))
                     (keys (properties_of b)) = true).
  { unfold classify in H. fold (properties_of a) (properties_of b) in H.
    destruct (existsb _ (keys (properties_of a))); [discriminate|].
    destruct (scan_range (properties_of a) (properties_of b) (keys (properties_of b)))
      as [E | [E | E]]; rewrite E in H; try discriminate.
    destruct (existsb _ (new_Set _)); [discriminate|].
    destruct (filter _ (keys (properties_of b))) as [|k ks] eqn:Ef; [discriminate|].
    assert (Hk : In k (filter (fun k => negb (has_property (properties_of a) k))
                         (keys (properties_of b))))
      by (rewrite Ef; left; reflexivity).
    apply filter_In in Hk. apply existsb_exists. exists k. exact Hk. }
  unfold classify. fold (properties_of a) (properties_of b).
  rewrite Hadded. reflexivity.
Qed.

Lemma undoing_a_minor_change_is_major_witness :
  classify (Some Examples.optional_a) Examples.optional_a_b = Returns minor /\
  classify (Some Examples.optional_a_b) Examples.optional_a = Returns major.
Proof.
  split; [reflexivity|].
  apply (undoing_a_minor_change_is_major Examples.optional_a Examples.optional_a_b).
  reflexivity.
Defined.

Lemma step_none_shared oP nP k a b :
  own oP k = Some a -> own nP k = Some b -> shape_step oP nP k = None ->
  stringify a = stringify b \/ widens a b = true.
Proof.
  intros Ha Hb H. rewrite (step_of_shared _ _ _ a b Ha Hb) in H.
  destruct (String.eqb (stringify a) (stringify b)) eqn:E.
  - left. apply String.eqb_eq. exact E.
  - right. destruct a; try discriminate; destruct b; try discriminate;
      destruct (widens _ _); try reflexivity; discriminate.
Qed.

Lemma existsb_nowhere_inv {A} (f : A -> bool) l :
  existsb f l = false -> forall x, In x l -> f x = false.
Proof.
  intros H x Hx. destruct (f x) eqn:E; [|reflexivity].
  assert (E' : existsb f l = true) by (apply existsb_exists; exists x; split; assumption).
  congruence.
Qed.

(** X10: what a result below [major] guarantees.  When [classify] returns
    [patch] or [minor], every property of the old document is found in the
    new one, no entry of the new [required] list is missing from the old one,
    every property that both documents have is serialised as before or has an
    [enum] that was widened, and no property that the old document lacks is
    required; the result is [patch] exactly when the new document has no
    property that the old one lacks. *)
Theorem below_major_guarantees (old new : SchemaDocument) (s : Severity) :
  classify (Some old) new = Returns s -> s <> major ->
  (forall k, In k (keys (properties_of old)) -> has_property (properties_of new) k = true) /\
  requires_more old new = false /\
  (forall k a b,
     own (properties_of old) k = Some a -> own (properties_of new) k = Some b ->
     stringify a = stringify b \/ widens a b = true) /\
  (forall k, In k (keys (properties_of new)) ->
     has_property (properties_of old) k = false ->
     set_has (required_of new) (JString k) = false) /\
  (s = patch <->
   forall k, In k (keys (properties_of new)) -> has_property (properties_of old) k = true).
Proof.
  intros H Hs. unfold classify in H.
  fold (properties_of old) (properties_of new) (required_of old) (required_of new) in H.
  destruct (existsb _ (keys (properties_of old))) eqn:E1;
    [injection H as <-; contradiction|].
  destruct (scan_range (properties_of old) (properties_of new) (keys (properties_of new)))
    as [E2 | [E2 | E2]]; rewrite E2 in H;
    [| injection H as <-; contradiction | discriminate].
  rewrite required_loop in H.
  destruct (requires_more old new) eqn:E3; [injection H as <-; contradiction|].
  split; [|split; [reflexivity|split; [|split]]].
  - intros k Hk. apply (existsb_nowhere_inv _ _ E1) in Hk.
    apply negb_false_iff. exact Hk.
  - intros k a b Ha Hb.
    apply (step_none_shared _ _ k a b Ha Hb).
    apply (scan_none_everywhere _ _ _ E2). apply (key_of_own _ _ _ Hb).
  - intros k Hk Hp.
    destruct (filter _ (keys (properties_of new))) as [|k0 ks] eqn:Ef.
    + assert (Hin : In k (filter (fun k => negb (has_property (properties_of old) k))
                            (keys (properties_of new))))
        by (apply filter_In; split; [exact Hk | rewrite Hp; reflexivity]).
      rewrite Ef in Hin. destruct Hin.
    + cbn [List.length Nat.eqb negb] in H.
      destruct (existsb _ (k0 :: ks)) eqn:E4; [injection H as <-; contradiction|].
      assert (Hin : In k (k0 :: ks))
        by (rewrite <- Ef; apply filter_In; split; [exact Hk | rewrite Hp; reflexivity]).
      apply (existsb_nowhere_inv _ _ E4) in Hin. rewrite set_has_new_Set in Hin. exact Hin.
  - destruct (filter _ (keys (properties_of new))) as [|k0 ks] eqn:Ef.
    + cbn [List.length Nat.eqb negb] in H. injection H as <-.
      split; [|reflexivity]. intros _ k Hk.
      destruct (has_property (properties_of old) k) eqn:Hp; [reflexivity|].
      assert (Hin : In k (filter (fun k => negb (has_property (properties_of old) k))
                            (keys (properties_of new))))
        by (apply filter_In; split; [exact Hk | rewrite Hp; reflexivity]).
      rewrite Ef in Hin. destruct Hin.
    + cbn [List.length Nat.eqb negb] in H.
      assert (Hk0 : In k0 (filter (fun k => negb (has_property (properties_of old) k))
                             (keys (properties_of new))))
        by (rewrite Ef; left; reflexivity).
      apply filter_In in Hk0. destruct Hk0 as [Hin Hp]. apply negb_true_iff in Hp.
      destruct (existsb _ (k0 :: ks)); injection H as <-; [contradiction|].
      split; [discriminate|]. intros Hall. rewrite (Hall k0 Hin) in Hp. discriminate.
Qed.

Lemma below_major_guarantees_witness :
  classify (Some Examples.status_AB) Examples.status_ABC = Returns patch /\
  requires_more Examples.status_AB Examples.status_ABC = false.
Proof.
  assert (H : classify (Some Examples.status_AB) Examples.status_ABC = Returns patch)
    by reflexivity.
  split; [exact H|].
  apply (below_major_guarantees Examples.status_AB Examples.status_ABC patch H).
  discriminate.
Defined.

(** X11: [classify] throws only at a property that the new document has
    and that is [null] in one of the two documents and not in the other. *)
Theorem classify_throws_only_on_null (old : option SchemaDocument) (new : SchemaDocument) :
  classify old new = Throws ->
  exists oldJs k,
    old = Some oldJs /\ In k (keys (properties_of new)) /\
    ((own (properties_of oldJs) k = Some JNull /\ own (properties_of new) k <> Some JNull)
     \/ (own (properties_of new) k = Some JNull
         /\ own (properties_of oldJs) k <> Some JNull)).
Proof.
  intros H. destruct old as [oldJs|]; [|discriminate].
  exists oldJs. unfold classify in H. fold (properties_of oldJs) (properties_of new) in H.
  destruct (existsb _ (keys (properties_of oldJs))); [discriminate|].
  destruct (scan_range (properties_of oldJs) (properties_of new) (keys (properties_of new)))
    as [E | [E | E]]; rewrite E in H.
  - destruct (existsb _ (new_Set _)); [discriminate|].
    destruct (negb _); [|discriminate]. destruct (existsb _ _); discriminate.
  - discriminate.
  - apply scan_throws_somewhere in E. destruct E as (k & Hk & Hs).
    exists k. split; [reflexivity|]. split; [exact Hk|].
    destruct (own_of_key _ _ Hk) as (b & Hb).
    destruct (own (properties_of oldJs) k) as [a|] eqn:Ha.
    + rewrite (step_of_shared _ _ _ a b Ha Hb) in Hs.
      destruct (String.eqb (stringify a) (stringify b)) eqn:Es; [discriminate|].
      destruct a; destruct b;
        try (destruct (widens _ _); discriminate);
        try (simpl in Es; discriminate);
        try (left; split; [reflexivity | rewrite Hb; discriminate]);
        try (right; split; [rewrite Hb; reflexivity | discriminate]).
    + right. split; [|discriminate]. rewrite Hb. f_equal.
      unfold shape_step, get, has_property, inherited in Hs. rewrite Ha, Hb in Hs.
      cbv zeta in Hs.
      destruct (String.eqb k "__proto__"); cbn [orb] in Hs.
      * destruct (strict_neq _ _); [|discriminate].
        rewrite enum_set_parsed in Hs. cbn in Hs.
        destruct b; try reflexivity; try discriminate;
          destruct (enum_values _); discriminate.
      * destruct (mem k prototype_functions); [|discriminate].
        destruct (strict_neq _ _); [|discriminate].
        rewrite enum_set_parsed in Hs. cbn in Hs.
        destruct b; try reflexivity; try discriminate;
          destruct (enum_values _); discriminate.
Qed.

Lemma classify_throws_only_on_null_witness :
  classify (Some Examples.null_schema_a) Examples.string_schema_a = Throws /\
  exists oldJs k,
    Some Examples.null_schema_a = Some oldJs /\
    In k (keys (properties_of Examples.string_schema_a)) /\
    ((own (properties_of oldJs) k = Some JNull
      /\ own (properties_of Examples.string_schema_a) k <> Some JNull)
     \/ (own (properties_of Examples.string_schema_a) k = Some JNull
         /\ own (properties_of oldJs) k <> Some JNull)).
Proof.
  split; [reflexivity|].
  apply (classify_throws_only_on_null (Some Examples.null_schema_a) Examples.string_schema_a).
  reflexivity.
Defined.

End ClassifierMore.

(** ** The script as a whole *)

Module MainFacts.
Import JS SemVer Lattice Classifier Policy Files Main.
Import SemVerFacts LatticeFacts ClassifierFacts.

Lemma classify_files_returns w files : forall required out r,
  classify_files w files required = (out, Returns r) ->
  exists cs,
    Forall2 (classified w) files cs /\
    r = fold_left bumpFrom cs required /\
    out = map schema_line (combine files cs).
Proof.
  induction files as [|f files IH]; simpl; intros required out r H.
  - injection H as <- <-. exists []. repeat split. constructor.
  - destruct (working_copy w f) as [newJ|] eqn:Ew; [|discriminate].
    destruct (classify (old_revision w f) newJ) as [c|] eqn:Ec; [|discriminate].
    destruct (classify_files w files (bumpFrom required c)) as [out' r'] eqn:E.
    injection H as <- ->.
    destruct (IH _ _ _ E) as (cs & HF & -> & ->).
    exists (c :: cs). repeat split. constructor; [exists newJ; split; assumption | exact HF].
Qed.

Lemma classified_not_none w files cs :
  Forall2 (classified w) files cs -> forall c, In c cs -> c <> none.
Proof.
  induction 1 as [|f c files cs (newJ & _ & Hc) _ IH]; intros c' Hc'; [destruct Hc'|].
  destruct Hc' as [<- | Hc']; [|apply IH; exact Hc'].
  destruct (classify_range (old_revision w f) newJ) as [E | [E | [E | E]]];
    rewrite E in Hc; try discriminate; injection Hc as <-; discriminate.
Qed.

Lemma classify_files_throws w files f : forall required,
  In f files -> working_copy w f = Throws ->
  snd (classify_files w files required) = Throws.
Proof.
  induction files as [|g files IH]; intros required Hin Hf; [destruct Hin|].
  simpl. destruct Hin as [-> | Hin].
  - rewrite Hf. reflexivity.
  - destruct (working_copy w g) as [newJ|]; [|reflexivity].
    destruct (classify (old_revision w g) newJ) as [c|]; [|reflexivity].
    specialize (IH (bumpFrom required c) Hin Hf).
    destruct (classify_files w files (bumpFrom required c)) as [out r]. exact IH.
Qed.

(** A run that reaches its verdict: the files it classified, the two
    version strings, and what it printed. *)
Lemma main_exited w out st :
  main w = (out, Exited st) ->
  exists cs newV so sn,
    Forall2 (classified w) (schemaFiles (changed (git_diff w))) cs /\
    new_version (new_package w) = Returns newV /\
    String_of (old_version (old_package w)) = Returns so /\
    String_of newV = Returns sn /\
    out = map schema_line (combine (schemaFiles (changed (git_diff w))) cs)
          ++ [(log, ("Highest required: " ++ Severity_name (highest_required cs))%string);
              (log, ("contracts version: " ++ so ++ " -> " ++ sn
                     ++ " (" ++ Bump_name (cmp so sn) ++ ")")%string)]
          ++ output (Decide (highest_required cs) (cmp so sn)) /\
    st = status (Decide (highest_required cs) (cmp so sn)).
Proof.
  unfold main. intros H.
  destruct (classify_files w _ none) as [out0 [required|]] eqn:E; [|discriminate].
  destruct (new_version (new_package w)) as [newV|] eqn:En; [|discriminate].
  destruct (String_of (old_version (old_package w))) as [so|] eqn:Eo; [|discriminate].
  destruct (String_of newV) as [sn|] eqn:Es; [|discriminate].
  injection H as <- <-.
  destruct (classify_files_returns _ _ _ _ _ E) as (cs & HF & -> & ->).
  exists cs, newV, so, sn. repeat split; assumption.
Qed.

(** X12: a run that reaches its verdict has classified every changed file
    under [contracts/schema/], and only those, in order; it logs one line for
    each, then the level required, which is the aggregate of their
    severities, then the two versions and their bump, then the lines of the
    decision for that level and that bump, whose exit status is the run's. *)
Theorem main_composes (w : World) (out : list line) (st : Z) :
  main w = (out, Exited st) ->
  (forall f, In f (schemaFiles (changed (git_diff w))) <->
             In f (changed (git_diff w)) /\ startsWith f "contracts/schema/" = true) /\
  exists cs newV so sn,
    Forall2 (classified w) (schemaFiles (changed (git_diff w))) cs /\
    new_version (new_package w) = Returns newV /\
    String_of (old_version (old_package w)) = Returns so /\
    String_of newV = Returns sn /\
    out = map schema_line (combine (schemaFiles (changed (git_diff w))) cs)
          ++ [(log, ("Highest required: " ++ Severity_name (highest_required cs))%string);
              (log, ("contracts version: " ++ so ++ " -> " ++ sn
                     ++ " (" ++ Bump_name (cmp so sn) ++ ")")%string)]
          ++ output (Decide (highest_required cs) (cmp so sn)) /\
    st = status (Decide (highest_required cs) (cmp so sn)).
Proof.
  intros H. split; [|apply main_exited; exact H].
  intros f. apply (filter_In (fun f => startsWith f "contracts/schema/")).
Qed.

(** X13: a run that reaches its verdict passes (exit status 0) exactly
    when no changed file lies under [contracts/schema/], and fails (exit
    status 1) exactly when one does, whatever the two versions are: [cmp]
    never reports a bump that would cover a schema change. *)
Theorem main_passes_only_without_schema_files (w : World) (out : list line) (st : Z) :
  main w = (out, Exited st) ->
  (st = 0%Z /\ schemaFiles (changed (git_diff w)) = []) \/
  (st = 1%Z /\ schemaFiles (changed (git_diff w)) <> []).
Proof.
  intros H. destruct (main_exited _ _ _ H) as (cs & newV & so & sn & HF & _ & _ & _ & _ & ->).
  destruct (schemaFiles (changed (git_diff w))) as [|f files].
  - left. inversion HF; subst. split; [|reflexivity].
    destruct (cmp_never_a_bump so sn) as [-> | ->]; reflexivity.
  - right. split; [|discriminate].
    assert (Hne : highest_required cs <> none).
    { intros E. apply (highest_required_none cs (classified_not_none _ _ _ HF)) in E.
      subst cs. inversion HF. }
    destruct (cmp_never_a_bump so sn) as [-> | ->];
      destruct (highest_required cs); try contradiction; reflexivity.
Qed.

(** X14: a changed file under [contracts/schema/] that cannot be read from
    the working copy, because it was deleted or is not JSON, ends the run
    with an uncaught exception: there is no verdict. *)
Theorem unreadable_schema_file_is_uncaught (w : World) (f : string) :
  In f (schemaFiles (changed (git_diff w))) ->
  working_copy w f = Throws ->
  snd (main w) = Uncaught.
Proof.
  intros Hin Hf. unfold main.
  pose proof (classify_files_throws w _ f none Hin Hf) as H.
  destruct (classify_files w _ none) as [out r]. simpl in H. subst r. reflexivity.
Qed.

(** X15: when no changed file lies under [contracts/schema/] and the two
    versions can be read, the run logs the level [none] and the versions,
    warns exactly when [parse] rejects one of the two version strings, and
    passes with exit status 0. *)
Theorem main_without_schema_files (w : World) (newV : option json) (so sn : string) :
  schemaFiles (changed (git_diff w)) = [] ->
  new_version (new_package w) = Returns newV ->
  String_of (old_version (old_package w)) = Returns so ->
  String_of newV = Returns sn ->
  main w =
    ([(log, "Highest required: none");
      (log, ("contracts version: " ++ so ++ " -> " ++ sn
             ++ " (" ++ Bump_name (cmp so sn) ++ ")")%string)]
     ++ match parse so, parse sn with
        | Some _, Some _ => []
        | _, _ => [(warn, warning)]
        end
     ++ [(log, "✅ no schema changes")],
     Exited 0%Z).
Proof.
  intros Hf Hn Ho Hs. unfold main. rewrite Hf. cbn [classify_files]. rewrite Hn, Ho, Hs.
  unfold cmp. destruct (parse so) as [o|] eqn:Eo; [|reflexivity].
  destruct (parse sn) as [n|] eqn:En; [|reflexivity].
  apply parse_gives_NaN in Eo, En. subst o n. reflexivity.
Qed.

Import Runs.

Lemma main_composes_witness :
  main additive_run = (fst (main additive_run), Exited 1%Z) /\
  exists cs newV so sn,
    Forall2 (classified additive_run) (schemaFiles (changed (git_diff additive_run))) cs /\
    new_version (new_package additive_run) = Returns newV /\
    String_of (old_version (old_package additive_run)) = Returns so /\
    String_of newV = Returns sn /\
    fst (main additive_run)
    = map schema_line (combine (schemaFiles (changed (git_diff additive_run))) cs)
      ++ [(log, ("Highest required: " ++ Severity_name (highest_required cs))%string);
          (log, ("contracts version: " ++ so ++ " -> " ++ sn
                 ++ " (" ++ Bump_name (cmp so sn) ++ ")")%string)]
      ++ output (Decide (highest_required cs) (cmp so sn)) /\
    1%Z = status (Decide (highest_required cs) (cmp so sn)).
Proof.
  assert (H : main additive_run = (fst (main additive_run), Exited 1%Z)) by reflexivity.
  split; [exact H|].
  apply (proj2 (main_composes additive_run _ _ H)).
Defined.

Lemma main_passes_only_without_schema_files_witness :
  main additive_run = (fst (main additive_run), Exited 1%Z) /\
  schemaFiles (changed (git_diff additive_run)) = ["contracts/schema/offer.json"] /\
  ((1%Z = 0%Z /\ schemaFiles (changed (git_diff additive_run)) = []) \/
   (1%Z = 1%Z /\ schemaFiles (changed (git_diff additive_run)) <> [])).
Proof.
  assert (H : main additive_run = (fst (main additive_run), Exited 1%Z)) by reflexivity.
  split; [exact H|]. split; [reflexivity|].
  apply (main_passes_only_without_schema_files additive_run _ _ H).
Defined.

Lemma unreadable_schema_file_is_uncaught_witness :
  In "contracts/schema/offer.json" (schemaFiles (changed (git_diff deletion_run))) /\
  working_copy deletion_run "contracts/schema/offer.json" = Throws /\
  snd (main deletion_run) = Uncaught.
Proof.
  assert (H : In "contracts/schema/offer.json"
                (schemaFiles (changed (git_diff deletion_run))))
    by (left; reflexivity).
  split; [exact H|]. split; [reflexivity|].
  apply (unreadable_schema_file_is_uncaught deletion_run "contracts/schema/offer.json" H).
  reflexivity.
Defined.

Lemma main_without_schema_files_witness :
  schemaFiles (changed (git_diff readme_run)) = [] /\
  main readme_run =
    ([(log, "Highest required: none");
      (log, "contracts version: 1.0.0 -> 1.0.0 (invalid)");
      (warn, warning);
      (log, "✅ no schema changes")],
     Exited 0%Z).
Proof.
  split; [reflexivity|].
  apply (main_without_schema_files readme_run (Some (JString "1.0.0")) "1.0.0" "1.0.0");
    reflexivity.
Defined.

End MainFacts.
